(** * mcp-server-zoom-noauth: the Zoom tool server, embedded and verified

    A shallow embedding of [src/mcp_server_zoom_noauth/server.py]:
    the response normalizer [convert_datetime_fields], the [ZoomClient]
    facade with its four operations, and the dispatcher [handle_call_tool].

    Conventions of the embedding.
    - A Python [str] is a [string]; each character stands for the code point
      of its byte (the code points below 256).
    - A Python value is a [pyval].  JSON numbers are the integers; floating
      point values are outside the embedding.
    - A Python [dict] is an association list in insertion order; the
      operations that build one ([dict_set], [dict_of_items]) keep keys unique.
    - Code that performs HTTP calls or raises runs in the monad [M]: a state
      that survives exceptions, and a result that is a value or an [exn].
    - What the interpreter and the libraries compute and the source only
      calls (the clock, [repr], base64, the wording of interpreter errors,
      the network) is a field of [Runtime]. *)

From Stdlib Require Import String Ascii List ZArith Bool Lia.
From Stdlib Require Import DecimalString DecimalPos.
Import ListNotations.
Open Scope Z_scope.
Open Scope list_scope.
Open Scope string_scope.

(** ** Python values *)

(** [datetime.datetime]: the fields of a timestamp; [utcoffset] is the
    offset of an aware timestamp in seconds. *)
Record datetime := mk_datetime {
  year : Z; month : Z; day : Z;
  hour : Z; minute : Z; second : Z; microsecond : Z;
  utcoffset : option Z
}.

#[local] Unset Elimination Schemes.
Inductive pyval : Type :=
| PNone
| PBool (b : bool)
| PInt (n : Z)
| PStr (s : string)
| PList (items : list pyval)
| PDict (items : list (string * pyval))
| PDatetime (d : datetime)
| PTzlocal.
#[local] Set Elimination Schemes.

(** Induction over nested values: the hypotheses for lists and dicts give
    the property for every element. *)
Fixpoint pyval_nested_ind (P : pyval -> Prop)
    (HNone : P PNone) (HBool : forall b, P (PBool b))
    (HInt : forall n, P (PInt n)) (HStr : forall s, P (PStr s))
    (HList : forall l, Forall P l -> P (PList l))
    (HDict : forall d, Forall (fun kv => P (snd kv)) d -> P (PDict d))
    (HDatetime : forall d, P (PDatetime d)) (HTz : P PTzlocal)
    (v : pyval) {struct v} : P v :=
  let rec := pyval_nested_ind P HNone HBool HInt HStr HList HDict HDatetime HTz in
  match v with
  | PNone => HNone
  | PBool b => HBool b
  | PInt n => HInt n
  | PStr s => HStr s
  | PList l =>
      HList l ((fix go (l : list pyval) : Forall P l :=
                  match l with
                  | [] => Forall_nil P
                  | x :: l' => Forall_cons x (rec x) (go l')
                  end) l)
  | PDict d =>
      HDict d ((fix go (d : list (string * pyval)) : Forall (fun kv => P (snd kv)) d :=
                  match d with
                  | [] => Forall_nil _
                  | kv :: d' => Forall_cons kv (rec (snd kv)) (go d')
                  end) d)
  | PDatetime d => HDatetime d
  | PTzlocal => HTz
  end.

(** Truth value of a Python object ([if x], [not x]). *)
Definition truthy (v : pyval) : bool :=
  match v with
  | PNone => false
  | PBool b => b
  | PInt n => negb (n =? 0)%Z
  | PStr s => negb (s =? "")
  | PList l => match l with [] => false | _ => true end
  | PDict d => match d with [] => false | _ => true end
  | PDatetime _ => true
  | PTzlocal => true
  end.

(** ** Strings *)

(** [s[:n]] and [s[n:]] for a non-negative [n]. *)
Fixpoint str_take (n : nat) (s : string) : string :=
  match n, s with
  | S n', String c s' => String c (str_take n' s')
  | _, _ => ""
  end.

Fixpoint str_drop (n : nat) (s : string) : string :=
  match n, s with
  | S n', String _ s' => str_drop n' s'
  | _, _ => s
  end.

(** [s.startswith(p)], returning what follows the prefix. *)
Fixpoint strip_prefix (p s : string) : option string :=
  match p, s with
  | EmptyString, _ => Some s
  | String a p', String b s' => if Ascii.eqb a b then strip_prefix p' s' else None
  | String _ _, EmptyString => None
  end.

(** [sub in s] on strings. *)
Fixpoint str_contains (sub s : string) : bool :=
  match strip_prefix sub s with
  | Some _ => true
  | None => match s with
            | EmptyString => false
            | String _ s' => str_contains sub s'
            end
  end.

(** [sep.join(parts)] *)
Fixpoint str_join (sep : string) (parts : list string) : string :=
  match parts with
  | [] => ""
  | [p] => p
  | p :: rest => p ++ sep ++ str_join sep rest
  end.

(** [str(n)] for an integer. *)
Definition str_of_Z (n : Z) : string := NilZero.string_of_int (Z.to_int n).

(** ** Dicts: association lists in insertion order *)

Definition dict := list (string * pyval).

Fixpoint dict_lookup (d : dict) (k : string) : option pyval :=
  match d with
  | [] => None
  | (k', v) :: d' => if k' =? k then Some v else dict_lookup d' k
  end.

(** [d.get(k, default)] *)
Definition dict_get (d : dict) (k : string) (default : pyval) : pyval :=
  match dict_lookup d k with
  | Some v => v
  | None => default
  end.

(** [k in d] *)
Definition dict_has (d : dict) (k : string) : bool :=
  match dict_lookup d k with Some _ => true | None => false end.

(** [d[k] = v]: an existing key keeps its position, a new key goes last. *)
Fixpoint dict_set (d : dict) (k : string) (v : pyval) : dict :=
  match d with
  | [] => [(k, v)]
  | (k', v') :: d' =>
      if k' =? k then (k', v) :: d' else (k', v') :: dict_set d' k v
  end.

(** The items are stored one after the other, starting from [acc]. *)
Definition dict_fold (acc : dict) (items : list (string * pyval)) : dict :=
  fold_left (fun d kv => dict_set d (fst kv) (snd kv)) items acc.

(** The dict built by a comprehension [{k: v for k, v in items}]. *)
Definition dict_of_items (items : list (string * pyval)) : dict :=
  dict_fold [] items.

(** [list(d.keys())] *)
Definition keys (d : dict) : list string := map fst d.

(** ** Exceptions, HTTP and the runtime *)

(** The exceptions the code tells apart: [requests.exceptions.RequestException]
    (with the status code of [e.response] when a response is attached) and
    every other [Exception].  [exn_msg] is [str(e)]. *)
Inductive exn : Type :=
| RequestException (response_status : option Z) (msg : string)
| Exception (msg : string).

Definition exn_msg (e : exn) : string :=
  match e with
  | RequestException _ m => m
  | Exception m => m
  end.

Inductive http_method := GET | POST.

(** One call of [requests.get] / [requests.post] as the code issues it. *)
Record request := mk_request {
  method : http_method;
  url : pyval;
  headers : list (string * string);
  params : list (string * pyval);
  data : list (string * pyval)
}.

(** A [requests.Response]: [json] is what [response.json()] returns or raises. *)
Record response := mk_response {
  status_code : Z;
  text : string;
  json : exn + pyval
}.

Inductive http_outcome :=
| Responds (r : response)
| Raises (e : exn).

(** Failures raised by the interpreter itself, not by the source. *)
Inductive interp_error :=
| NotSubscriptable (v : pyval)
| NotIterable (v : pyval)
| NoAttribute (v : pyval) (attr : string)
| MissingKey (k : string)
| BadInt (v : pyval).

(** What the source calls and does not define. *)
Record Runtime := mk_runtime {
  (** the network: the outcome of a request, given the requests made before *)
  upstream : list request -> request -> http_outcome;
  (** [datetime.now(tzlocal()).strftime('%z')], such as [+0800] *)
  local_offset : string;
  (** [d.isoformat()] *)
  isoformat : datetime -> string;
  (** [(datetime.now() + timedelta(seconds=x)).isoformat()] *)
  expiry_isoformat : pyval -> exn + string;
  (** [repr(v)] of a container or a timestamp *)
  repr : pyval -> string;
  (** [base64.b64encode(s.encode()).decode()] *)
  b64encode : string -> string;
  (** [int(s)] on a string *)
  int_of_str : string -> option Z;
  (** [str(e)] of an interpreter error *)
  describe : interp_error -> string
}.

(** ** Operations of the interpreter on values *)

Definition interp_raise {A} (rt : Runtime) (err : interp_error) : exn + A :=
  inl (Exception (describe rt err)).

(** [str(v)], as an f-string formats a value. *)
Definition py_str (rt : Runtime) (v : pyval) : string :=
  match v with
  | PStr s => s
  | PNone => "None"
  | PBool true => "True"
  | PBool false => "False"
  | PInt n => str_of_Z n
  | _ => repr rt v
  end.

(** [v == s] for a string [s]. *)
Definition py_eq_str (v : pyval) (s : string) : bool :=
  match v with
  | PStr s' => s' =? s
  | _ => false
  end.

(** [v[k]] with a string key. *)
Definition py_getitem (rt : Runtime) (v : pyval) (k : string) : exn + pyval :=
  match v with
  | PDict d => match dict_lookup d k with
               | Some x => inr x
               | None => interp_raise rt (MissingKey k)
               end
  | _ => interp_raise rt (NotSubscriptable v)
  end.

(** [v.get(k, default)] *)
Definition py_get (rt : Runtime) (v : pyval) (k : string) (default : pyval)
  : exn + pyval :=
  match v with
  | PDict d => inr (dict_get d k default)
  | _ => interp_raise rt (NoAttribute v "get")
  end.

(** [k in v] for a string [k]. *)
Definition py_in (rt : Runtime) (k : string) (v : pyval) : exn + bool :=
  match v with
  | PDict d => inr (dict_has d k)
  | PList l => inr (existsb (fun x => py_eq_str x k) l)
  | PStr s => inr (str_contains k s)
  | _ => interp_raise rt (NotIterable v)
  end.

Fixpoint str_chars (s : string) : list pyval :=
  match s with
  | EmptyString => []
  | String c s' => PStr (String c EmptyString) :: str_chars s'
  end.

(** The items [for x in v] goes through. *)
Definition py_iter (rt : Runtime) (v : pyval) : exn + list pyval :=
  match v with
  | PList l => inr l
  | PDict d => inr (map (fun kv => PStr (fst kv)) d)
  | PStr s => inr (str_chars s)
  | _ => interp_raise rt (NotIterable v)
  end.

(** [v[:n]], evaluated for a log line: only its failure matters. *)
Definition py_slice (rt : Runtime) (v : pyval) : exn + unit :=
  match v with
  | PStr _ | PList _ => inr tt
  | _ => interp_raise rt (NotSubscriptable v)
  end.

(** [int(v)] *)
Definition py_int (rt : Runtime) (v : pyval) : exn + Z :=
  match v with
  | PInt n => inr n
  | PBool b => inr (if b then 1 else 0)
  | PStr s => match int_of_str rt s with
              | Some n => inr n
              | None => interp_raise rt (BadInt v)
              end
  | _ => interp_raise rt (BadInt v)
  end.

(** ** The response normalizer *)

(** server.py, lines 27-39. *)
Fixpoint convert_datetime_fields (rt : Runtime) (obj : pyval) : pyval :=
  match obj with
  | PDict d =>
      PDict (dict_of_items
               (map (fun kv => (fst kv, convert_datetime_fields rt (snd kv))) d))
  | PList l => PList (map (convert_datetime_fields rt) l)
  | PDatetime d => PStr (isoformat rt d)
  | PTzlocal =>
      let offset := local_offset rt in
      PStr ("UTC" ++ str_take 3 offset ++ ":" ++ str_drop 3 offset)
  | _ => obj
  end.

(** ** json.dumps *)

Definition dquote : ascii := "034"%char.

Definition hex_digit (n : N) : ascii :=
  match String.get (N.to_nat n) "0123456789abcdef" with
  | Some c => c
  | None => "0"%char
  end.

(** ['\\u{0:04x}'.format(n)] *)
Definition unicode_escape (n : N) : string :=
  String "\" (String "u"
    (String (hex_digit (N.modulo (N.div n 4096) 16))
    (String (hex_digit (N.modulo (N.div n 256) 16))
    (String (hex_digit (N.modulo (N.div n 16) 16))
    (String (hex_digit (N.modulo n 16)) ""))))).

(** The replacement of one character by [json.encoder.py_encode_basestring_ascii]:
    the short escapes, the printable range [' '..'~'] kept, the rest as
    [\uXXXX]. *)
Definition escape_char (c : ascii) : string :=
  let n := N_of_ascii c in
  if (n =? 34)%N then String "\" (String dquote "")
  else if (n =? 92)%N then "\\"
  else if (n =? 10)%N then "\n"
  else if (n =? 13)%N then "\r"
  else if (n =? 9)%N then "\t"
  else if (n =? 8)%N then "\b"
  else if (n =? 12)%N then "\f"
  else if ((32 <=? n) && (n <=? 126))%N then String c ""
  else unicode_escape n.

Fixpoint escape_body (s : string) : string :=
  match s with
  | EmptyString => ""
  | String c s' => escape_char c ++ escape_body s'
  end.

Definition json_string (s : string) : string :=
  String dquote (escape_body s ++ String dquote "").

Fixpoint sum_mapM {E A B} (f : A -> E + B) (l : list A) : E + list B :=
  match l with
  | [] => inr []
  | x :: l' =>
      match f x with
      | inl e => inl e
      | inr y => match sum_mapM f l' with
                 | inl e => inl e
                 | inr ys => inr (y :: ys)
                 end
      end
  end.

Fixpoint sum_filterM {E A} (p : A -> E + bool) (l : list A) : E + list A :=
  match l with
  | [] => inr []
  | x :: l' =>
      match p x with
      | inl e => inl e
      | inr keep => match sum_filterM p l' with
                    | inl e => inl e
                    | inr rest => inr (if keep : bool then x :: rest else rest)
                    end
      end
  end.

(** [json.dumps(v)] with the default options: separators [", "] and [": "],
    [ensure_ascii], keys in insertion order; [TypeError] on a value that is
    not JSON. *)
Fixpoint json_dumps (v : pyval) : exn + string :=
  match v with
  | PNone => inr "null"
  | PBool true => inr "true"
  | PBool false => inr "false"
  | PInt n => inr (str_of_Z n)
  | PStr s => inr (json_string s)
  | PList l =>
      match sum_mapM json_dumps l with
      | inl e => inl e
      | inr parts => inr ("[" ++ str_join ", " parts ++ "]")
      end
  | PDict d =>
      match sum_mapM (fun kv => match json_dumps (snd kv) with
                                | inl e => inl e
                                | inr s => inr (json_string (fst kv) ++ ": " ++ s)
                                end) d with
      | inl e => inl e
      | inr parts => inr ("{" ++ str_join ", " parts ++ "}")
      end
  | PDatetime _ => inl (Exception "Object of type datetime is not JSON serializable")
  | PTzlocal => inl (Exception "Object of type tzlocal is not JSON serializable")
  end.

(** ** The grammar of JSON texts (RFC 8259)

    Each relation [p s r] reads: [s] starts with a [p], and [r] is what
    follows it. *)

Definition is_ws (c : ascii) : bool :=
  let n := N_of_ascii c in
  ((n =? 32) || (n =? 9) || (n =? 10) || (n =? 13))%N.

Definition is_digit (c : ascii) : bool :=
  let n := N_of_ascii c in ((48 <=? n) && (n <=? 57))%N.

Definition is_digit19 (c : ascii) : bool :=
  let n := N_of_ascii c in ((49 <=? n) && (n <=? 57))%N.

Definition is_hex (c : ascii) : bool :=
  let n := N_of_ascii c in
  (((48 <=? n) && (n <=? 57)) || ((65 <=? n) && (n <=? 70))
   || ((97 <=? n) && (n <=? 102)))%N.

(** A character that stands for itself inside a JSON string. *)
Definition is_unescaped (c : ascii) : bool :=
  let n := N_of_ascii c in
  ((32 <=? n) && negb (n =? 34) && negb (n =? 92))%N.

(** The character after a backslash in a two-character escape. *)
Definition is_escape_letter (c : ascii) : bool :=
  let n := N_of_ascii c in
  ((n =? 34) || (n =? 92) || (n =? 47) || (n =? 98) || (n =? 102)
   || (n =? 110) || (n =? 114) || (n =? 116))%N.

Inductive json_ws : string -> string -> Prop :=
| ws_done s : json_ws s s
| ws_skip c s r : is_ws c = true -> json_ws s r -> json_ws (String c s) r.

Inductive json_digits : string -> string -> Prop :=
| digits_one c r : is_digit c = true -> json_digits (String c r) r
| digits_more c s r :
    is_digit c = true -> json_digits s r -> json_digits (String c s) r.

Inductive json_int : string -> string -> Prop :=
| int_zero r : json_int (String "0" r) r
| int_digit c r : is_digit19 c = true -> json_int (String c r) r
| int_digits c s r :
    is_digit19 c = true -> json_digits s r -> json_int (String c s) r.

Inductive json_frac : string -> string -> Prop :=
| frac_none s : json_frac s s
| frac_some s r : json_digits s r -> json_frac (String "." s) r.

Inductive json_sign : string -> string -> Prop :=
| sign_none s : json_sign s s
| sign_plus s : json_sign (String "+" s) s
| sign_minus s : json_sign (String "-" s) s.

Inductive json_exp : string -> string -> Prop :=
| exp_none s : json_exp s s
| exp_some c s s1 r :
    (c = "e" \/ c = "E")%char -> json_sign s s1 -> json_digits s1 r ->
    json_exp (String c s) r.

Inductive json_number : string -> string -> Prop :=
| number_pos s s1 s2 r :
    json_int s s1 -> json_frac s1 s2 -> json_exp s2 r -> json_number s r
| number_neg s s1 s2 r :
    json_int s s1 -> json_frac s1 s2 -> json_exp s2 r ->
    json_number (String "-" s) r.

(** The characters of a string after its opening quote, up to and
    including the closing quote. *)
Inductive json_chars : string -> string -> Prop :=
| chars_end r : json_chars (String dquote r) r
| chars_plain c s r :
    is_unescaped c = true -> json_chars s r -> json_chars (String c s) r
| chars_escape c s r :
    is_escape_letter c = true -> json_chars s r ->
    json_chars (String "\" (String c s)) r
| chars_unicode h1 h2 h3 h4 s r :
    is_hex h1 = true -> is_hex h2 = true -> is_hex h3 = true ->
    is_hex h4 = true -> json_chars s r ->
    json_chars (String "\" (String "u" (String h1 (String h2 (String h3 (String h4 s)))))) r.

Inductive json_value : string -> string -> Prop :=
| value_null r : json_value ("null" ++ r) r
| value_true r : json_value ("true" ++ r) r
| value_false r : json_value ("false" ++ r) r
| value_number s r : json_number s r -> json_value s r
| value_string s r : json_chars s r -> json_value (String dquote s) r
| value_array_empty s r :
    json_ws s (String "]" r) -> json_value (String "[" s) r
| value_array s r : json_elements s r -> json_value (String "[" s) r
| value_object_empty s r :
    json_ws s (String "}" r) -> json_value (String "{" s) r
| value_object s r : json_members s r -> json_value (String "{" s) r
with json_elements : string -> string -> Prop :=
| elements_last s s1 s2 r :
    json_ws s s1 -> json_value s1 s2 -> json_ws s2 (String "]" r) ->
    json_elements s r
| elements_more s s1 s2 s3 r :
    json_ws s s1 -> json_value s1 s2 -> json_ws s2 (String "," s3) ->
    json_elements s3 r -> json_elements s r
with json_members : string -> string -> Prop :=
| members_last s s1 s2 s3 s4 s5 r :
    json_ws s (String dquote s1) -> json_chars s1 s2 ->
    json_ws s2 (String ":" s3) -> json_ws s3 s4 -> json_value s4 s5 ->
    json_ws s5 (String "}" r) -> json_members s r
| members_more s s1 s2 s3 s4 s5 s6 r :
    json_ws s (String dquote s1) -> json_chars s1 s2 ->
    json_ws s2 (String ":" s3) -> json_ws s3 s4 -> json_value s4 s5 ->
    json_ws s5 (String "," s6) -> json_members s6 r -> json_members s r.

(** A valid JSON document: one value, with optional whitespace around it. *)
Definition valid_json (s : string) : Prop :=
  exists s1 s2, json_ws s s1 /\ json_value s1 s2 /\ json_ws s2 "".

(** ** The monad of the code: state that survives an exception *)

Definition M (S A : Type) : Type := S -> (exn + A) * S.

Definition ret {S A} (a : A) : M S A := fun s => (inr a, s).

Definition raise {S A} (e : exn) : M S A := fun s => (inl e, s).

Definition bind {S A B} (m : M S A) (k : A -> M S B) : M S B :=
  fun s => match m s with
           | (inr a, s') => k a s'
           | (inl e, s') => (inl e, s')
           end.

(** [try: m  except Exception as e: h e] *)
Definition try_except {S A} (m : M S A) (h : exn -> M S A) : M S A :=
  fun s => match m s with
           | (inl e, s') => h e s'
           | (inr a, s') => (inr a, s')
           end.

(** A pure step that may raise. *)
Definition lift {S A} (r : exn + A) : M S A := fun s => (r, s).

Notation "x <- m ;; k" := (bind m (fun x => k))
  (at level 61, m at next level, right associativity).
Notation "m ;;; k" := (bind m (fun _ => k))
  (at level 61, right associativity).

(** ** ZoomClient *)

Record ZoomClient := mk_ZoomClient {
  access_token : pyval;
  refresh_token : pyval;
  client_id : pyval;
  client_secret : pyval;
  base_url : string
}.

(** The state of a method call: the object and the HTTP calls made so far. *)
Record world := mk_world {
  self : ZoomClient;
  calls : list request
}.

(** [ZoomClient.__init__], lines 42-51. *)
Definition ZoomClient_init (access_token_ refresh_token_ client_id_ client_secret_ : pyval)
  : exn + ZoomClient :=
  if negb (truthy access_token_) && negb (truthy refresh_token_)
  then inl (Exception "Either access_token or refresh_token must be provided")
  else inr {| access_token := access_token_;
              refresh_token := refresh_token_;
              client_id := client_id_;
              client_secret := client_secret_;
              base_url := "https://api.zoom.us/v2" |}.

Definition get_self : M world ZoomClient := fun w => (inr (self w), w).

Definition set_self (f : ZoomClient -> ZoomClient) : M world unit :=
  fun w => (inr tt, {| self := f (self w); calls := calls w |}).

(** [requests.get] / [requests.post]: the call is recorded, then the
    upstream answers or the library raises. *)
Definition requests_call (rt : Runtime) (req : request) : M world response :=
  fun w =>
    let w' := {| self := self w; calls := calls w ++ [req] |} in
    match upstream rt (calls w) req with
    | Responds r => (inr r, w')
    | Raises e => (inl e, w')
    end.

Definition dumps {S} (v : pyval) : M S string := lift (json_dumps v).

(** [_get_headers], lines 53-58. *)
Definition _get_headers (rt : Runtime) (zoom : ZoomClient) : list (string * string) :=
  [("Authorization", "Bearer " ++ py_str rt (access_token zoom));
   ("Content-Type", "application/json")].

(** The [except RequestException as e] clause of [_handle_token_refresh],
    lines 64-81; any other exception passes through. *)
Definition request_exception_reply (e : exn) : exn + string :=
  match e with
  | RequestException (Some status) details =>
      if (status =? 401)%Z
      then json_dumps (PDict
             [("error", PStr "Unauthorized. Token might be expired. Try refreshing your token.");
              ("details", PStr details)])
      else json_dumps (PDict
             [("error", PStr ("Zoom API error: " ++ str_of_Z status));
              ("details", PStr details)])
  | RequestException None details =>
      json_dumps (PDict [("error", PStr "Request to Zoom API failed");
                         ("details", PStr details)])
  | Exception _ => inl e
  end.

(** [_handle_token_refresh], lines 60-81. *)
Definition _handle_token_refresh (func : M world string) : M world string :=
  try_except func (fun e => lift (request_exception_reply e)).

(** The [try] block of [refresh_access_token], lines 99-153. *)
Definition refresh_access_token_body (rt : Runtime) (client_id_ client_secret_ : pyval)
  : M world string :=
  set_self (fun z => {| access_token := access_token z;
                        refresh_token := refresh_token z;
                        client_id := client_id_;
                        client_secret := client_secret_;
                        base_url := base_url z |}) ;;;
  let auth_header :=
    b64encode rt (py_str rt client_id_ ++ ":" ++ py_str rt client_secret_) in
  let headers_ := [("Authorization", "Basic " ++ auth_header);
                   ("Content-Type", "application/x-www-form-urlencoded")] in
  zoom <- get_self ;;
  let data_ := [("grant_type", PStr "refresh_token");
                ("refresh_token", refresh_token zoom)] in
  lift (py_slice rt (refresh_token zoom)) ;;;
  response <- requests_call rt
    (mk_request POST (PStr "https://zoom.us/oauth/token") headers_ [] data_) ;;
  if (status_code response =? 200)%Z then
    result <- lift (json response) ;;
    new_access <- lift (py_getitem rt result "access_token") ;;
    set_self (fun z => {| access_token := new_access;
                          refresh_token := refresh_token z;
                          client_id := client_id z;
                          client_secret := client_secret z;
                          base_url := base_url z |}) ;;;
    new_refresh <- lift (py_get rt result "refresh_token" (refresh_token zoom)) ;;
    set_self (fun z => {| access_token := access_token z;
                          refresh_token := new_refresh;
                          client_id := client_id z;
                          client_secret := client_secret z;
                          base_url := base_url z |}) ;;;
    expires_in <- lift (py_get rt result "expires_in" (PInt 3600)) ;;
    expires_at <- lift (expiry_isoformat rt expires_in) ;;
    dumps (PDict [("access_token", new_access);
                  ("refresh_token", new_refresh);
                  ("expires_at", PStr expires_at);
                  ("expires_in", expires_in);
                  ("status", PStr "success")])
  else
    dumps (PDict
      [("error", PStr ("Failed to refresh token. Status code: "
                       ++ str_of_Z (status_code response)));
       ("details", PStr (text response));
       ("raw_response", PStr (text response));
       ("status", PStr "error")]).

(** [refresh_access_token], lines 83-160. *)
Definition refresh_access_token (rt : Runtime) (client_id_ client_secret_ : pyval)
  : M world string :=
  lift (py_slice rt client_id_) ;;;
  zoom <- get_self ;;
  if negb (truthy (refresh_token zoom)) then
    dumps (PDict [("error", PStr "No refresh token provided");
                  ("status", PStr "error")])
  else
    try_except (refresh_access_token_body rt client_id_ client_secret_)
      (fun e => dumps (PDict [("error", PStr (exn_msg e));
                              ("status", PStr "error")])).

(** The closure [_operation] of [list_recordings], lines 177-208. *)
Definition list_recordings_operation (rt : Runtime) (from_date to_date : pyval)
    (page_size page_number : Z) : M world string :=
  let params0 := [("page_size", PInt (Z.min page_size 300));
                  ("page_number", PInt page_number)] in
  let params1 := if truthy from_date then dict_set params0 "from" from_date
                 else params0 in
  let params2 := if truthy to_date then dict_set params1 "to" to_date
                 else params1 in
  zoom <- get_self ;;
  response <- requests_call rt
    (mk_request GET (PStr (base_url zoom ++ "/users/me/recordings"))
                (_get_headers rt zoom) params2 []) ;;
  if negb (status_code response =? 200)%Z then
    dumps (PDict
      [("error", PStr ("Failed to retrieve recordings. Status code: "
                       ++ str_of_Z (status_code response)));
       ("details", PStr (text response));
       ("status", PStr "error")])
  else
    recordings_data <- lift (json response) ;;
    dumps (convert_datetime_fields rt recordings_data).

(** [list_recordings], lines 162-215. *)
Definition list_recordings (rt : Runtime) (from_date to_date : pyval)
    (page_size page_number : Z) : M world string :=
  try_except
    (_handle_token_refresh
       (list_recordings_operation rt from_date to_date page_size page_number))
    (fun e => dumps (PDict [("error", PStr (exn_msg e))])).

(** The closure [_operation] of [get_recording_details], lines 228-247. *)
Definition get_recording_details_operation (rt : Runtime) (meeting_id : pyval)
  : M world string :=
  zoom <- get_self ;;
  response <- requests_call rt
    (mk_request GET
       (PStr (base_url zoom ++ "/meetings/" ++ py_str rt meeting_id ++ "/recordings"))
       (_get_headers rt zoom) [] []) ;;
  if negb (status_code response =? 200)%Z then
    dumps (PDict
      [("error", PStr ("Failed to retrieve recording details. Status code: "
                       ++ str_of_Z (status_code response)));
       ("details", PStr (text response));
       ("status", PStr "error")])
  else
    recording_details <- lift (json response) ;;
    dumps (convert_datetime_fields rt recording_details).

(** [get_recording_details], lines 217-254. *)
Definition get_recording_details (rt : Runtime) (meeting_id : pyval) : M world string :=
  try_except
    (_handle_token_refresh (get_recording_details_operation rt meeting_id))
    (fun e => dumps (PDict [("error", PStr (exn_msg e))])).

(** The [for file in transcript_files] loop of [get_meeting_transcript],
    lines 298-316; [transcripts] is the list built so far. *)
Fixpoint fetch_transcripts (rt : Runtime) (transcript_files transcripts : list pyval)
  : M world (list pyval) :=
  match transcript_files with
  | [] => ret transcripts
  | file :: rest =>
      has_url <- lift (py_in rt "download_url" file) ;;
      if has_url : bool then
        download_url <- lift (py_getitem rt file "download_url") ;;
        zoom <- get_self ;;
        transcript_response <- requests_call rt
          (mk_request GET download_url (_get_headers rt zoom) [] []) ;;
        if (status_code transcript_response =? 200)%Z then
          file_id <- lift (py_get rt file "id" (PStr "")) ;;
          file_name <- lift (py_get rt file "file_name" (PStr "")) ;;
          recording_start <- lift (py_get rt file "recording_start" (PStr "")) ;;
          recording_end <- lift (py_get rt file "recording_end" (PStr "")) ;;
          fetch_transcripts rt rest
            (transcripts ++ [PDict [("file_id", file_id);
                                    ("file_name", file_name);
                                    ("recording_start", recording_start);
                                    ("recording_end", recording_end);
                                    ("content", PStr (text transcript_response))]])%list
        else fetch_transcripts rt rest transcripts
      else fetch_transcripts rt rest transcripts
  end.

(** The condition [file.get("file_type") == "TRANSCRIPT"], line 289. *)
Definition file_is_transcript (rt : Runtime) (file : pyval) : exn + bool :=
  match py_get rt file "file_type" PNone with
  | inl e => inl e
  | inr file_type => inr (py_eq_str file_type "TRANSCRIPT")
  end.

(** The transcript files of a listing, lines 286-289. *)
Definition select_transcript_files (rt : Runtime) (recordings_data : pyval)
  : exn + list pyval :=
  match py_in rt "recording_files" recordings_data with
  | inl e => inl e
  | inr false => inr []
  | inr true =>
      match py_getitem rt recordings_data "recording_files" with
      | inl e => inl e
      | inr recording_files =>
          match py_iter rt recording_files with
          | inl e => inl e
          | inr files => sum_filterM (file_is_transcript rt) files
          end
      end
  end.

(** The closure [_operation] of [get_meeting_transcript], lines 267-324. *)
Definition get_meeting_transcript_operation (rt : Runtime) (meeting_id : pyval)
  : M world string :=
  zoom <- get_self ;;
  recordings_response <- requests_call rt
    (mk_request GET
       (PStr (base_url zoom ++ "/meetings/" ++ py_str rt meeting_id ++ "/recordings"))
       (_get_headers rt zoom) [] []) ;;
  if negb (status_code recordings_response =? 200)%Z then
    dumps (PDict
      [("error", PStr ("Failed to retrieve recording information. Status code: "
                       ++ str_of_Z (status_code recordings_response)));
       ("details", PStr (text recordings_response));
       ("status", PStr "error")])
  else
    recordings_data <- lift (json recordings_response) ;;
    transcript_files <- lift (select_transcript_files rt recordings_data) ;;
    match transcript_files with
    | [] =>
        dumps (PDict [("error", PStr "No transcript files found for this meeting");
                      ("status", PStr "error")])
    | _ :: _ =>
        transcripts <- fetch_transcripts rt transcript_files [] ;;
        topic <- lift (py_get rt recordings_data "topic" (PStr "")) ;;
        duration <- lift (py_get rt recordings_data "duration" (PInt 0)) ;;
        dumps (PDict [("meeting_id", meeting_id);
                      ("topic", topic);
                      ("meeting_duration", duration);
                      ("transcripts", convert_datetime_fields rt (PList transcripts));
                      ("status", PStr "success")])
    end.

(** [get_meeting_transcript], lines 256-331. *)
Definition get_meeting_transcript (rt : Runtime) (meeting_id : pyval) : M world string :=
  try_except
    (_handle_token_refresh (get_meeting_transcript_operation rt meeting_id))
    (fun e => dumps (PDict [("error", PStr (exn_msg e))])).

(** ** The dispatcher *)

(** The reply segments of the protocol ([mcp.types]). *)
Inductive content :=
| TextContent (text : string)
| ImageContent (data mimeType : string)
| EmbeddedResource (resource : string).

(** A method call on a fresh client: the object is dropped afterwards, the
    HTTP calls stay. *)
Definition with_client {A} (zoom : ZoomClient) (m : M world A) : M (list request) A :=
  fun log => let (r, w) := m {| self := zoom; calls := log |} in (r, calls w).

Definition backtick : ascii := "`"%char.

(** The characters [\s] matches in a [str] pattern, among the code points
    below 256. *)
Definition is_space (c : ascii) : bool :=
  let n := N_of_ascii c in
  (((9 <=? n) && (n <=? 13)) || ((28 <=? n) && (n <=? 32))
   || (n =? 133) || (n =? 160))%N.

Fixpoint skip_space (s : string) : string :=
  match s with
  | String c s' => if is_space c then skip_space s' else s
  | EmptyString => s
  end.

(** The longest prefix without a backtick, and what follows it. *)
Fixpoint span_no_backtick (s : string) : string * string :=
  match s with
  | String c s' =>
      if Ascii.eqb c backtick then ("", s)
      else let (v, r) := span_no_backtick s' in (String c v, r)
  | EmptyString => ("", s)
  end.

(** A match of [`field`:\s*`([^`]+)`] at the start of [s]: its group 1. *)
Definition match_backtick_pair (field s : string) : option string :=
  match strip_prefix (String backtick (field ++ String backtick ":")) s with
  | None => None
  | Some rest =>
      match skip_space rest with
      | String c rest1 =>
          if Ascii.eqb c backtick then
            match span_no_backtick rest1 with
            | (String a v, String _ _) => Some (String a v)
            | _ => None
            end
          else None
      | EmptyString => None
      end
  end.

(** [re.search(r'`field`:\s*`([^`]+)`', s)]: group 1 of the leftmost match. *)
Fixpoint re_search_backtick_pair (field s : string) : option string :=
  match match_backtick_pair field s with
  | Some v => Some v
  | None => match s with
            | EmptyString => None
            | String _ s' => re_search_backtick_pair field s'
            end
  end.

(** The repair of collapsed arguments, lines 424-455. *)
Definition extract_backtick_arguments (name : string) (arguments : dict) : dict :=
  if (name =? "zoom_refresh_token") && (length arguments =? 1)%nat then
    match arguments with
    | (key, _) :: _ =>
        if str_contains "`zoom_refresh_token`" key
           && str_contains "`zoom_client_id`" key
           && str_contains "`zoom_client_secret`" key
        then
          match re_search_backtick_pair "zoom_refresh_token" key,
                re_search_backtick_pair "zoom_client_id" key,
                re_search_backtick_pair "zoom_client_secret" key with
          | Some refresh_token_, Some client_id_, Some client_secret_ =>
              [("zoom_refresh_token", PStr refresh_token_);
               ("zoom_client_id", PStr client_id_);
               ("zoom_client_secret", PStr client_secret_)]
          | _, _, _ => arguments
          end
        else arguments
    | [] => arguments
    end
  else arguments.

(** [x[:n] if x else None] inside a log line. *)
Definition slice_if_truthy (rt : Runtime) (v : pyval) : exn + unit :=
  if truthy v then py_slice rt v else inr tt.

(** The [zoom_refresh_token] branch, lines 457-491. *)
Definition call_refresh_token (rt : Runtime) (arguments : dict)
  : M (list request) (list content) :=
  let refresh_token_ := dict_get arguments "zoom_refresh_token" PNone in
  let client_id_ := dict_get arguments "zoom_client_id" PNone in
  let client_secret_ := dict_get arguments "zoom_client_secret" PNone in
  let access_token_ := dict_get arguments "zoom_access_token" PNone in
  lift (slice_if_truthy rt refresh_token_) ;;;
  lift (slice_if_truthy rt client_id_) ;;;
  if negb (truthy refresh_token_) then
    raise (Exception "zoom_refresh_token is required for token refresh")
  else if negb (truthy client_id_) || negb (truthy client_secret_) then
    raise (Exception
      "Both zoom_client_id and zoom_client_secret are required for token refresh")
  else
    zoom <- lift (ZoomClient_init access_token_ refresh_token_ PNone PNone) ;;
    try_except
      (results <- with_client zoom (refresh_access_token rt client_id_ client_secret_) ;;
       ret [TextContent results])
      (fun e =>
         body <- dumps (PDict [("error", PStr (exn_msg e)); ("status", PStr "error")]) ;;
         ret [TextContent body]).

(** The branch of the other tools, lines 493-552. *)
Definition call_resource_tool (rt : Runtime) (name : string) (arguments : dict)
  : M (list request) (list content) :=
  let access_token_ := dict_get arguments "zoom_access_token" PNone in
  if negb (truthy access_token_) then
    raise (Exception "zoom_access_token is required")
  else if name =? "zoom_list_recordings" then
    lift (py_slice rt access_token_) ;;;
    try_except
      (zoom <- lift (ZoomClient_init access_token_ PNone PNone PNone) ;;
       let from_date := dict_get arguments "from_date" PNone in
       let to_date := dict_get arguments "to_date" PNone in
       page_size <- lift (py_int rt (dict_get arguments "page_size" (PInt 30))) ;;
       page_number <- lift (py_int rt (dict_get arguments "page_number" (PInt 1))) ;;
       results <- with_client zoom
                    (list_recordings rt from_date to_date page_size page_number) ;;
       ret [TextContent results])
      (fun e => ret [TextContent ("Error: " ++ exn_msg e)])
  else if name =? "zoom_get_recording_details" then
    zoom <- lift (ZoomClient_init access_token_ PNone PNone PNone) ;;
    let meeting_id := dict_get arguments "meeting_id" PNone in
    if negb (truthy meeting_id) then raise (Exception "meeting_id is required")
    else
      results <- with_client zoom (get_recording_details rt meeting_id) ;;
      ret [TextContent results]
  else if name =? "zoom_get_meeting_transcript" then
    zoom <- lift (ZoomClient_init access_token_ PNone PNone PNone) ;;
    let meeting_id := dict_get arguments "meeting_id" PNone in
    if negb (truthy meeting_id) then raise (Exception "meeting_id is required")
    else
      results <- with_client zoom (get_meeting_transcript rt meeting_id) ;;
      ret [TextContent results]
  else raise (Exception ("Unknown tool: " ++ name)).

(** [handle_call_tool], lines 409-555.  [arguments] is [None] when absent. *)
Definition handle_call_tool (rt : Runtime) (name : string) (arguments : option dict)
  : M (list request) (list content) :=
  try_except
    (match arguments with
     | None | Some [] => raise (Exception ("Missing arguments for " ++ name))
     | Some (kv :: more) =>
         let arguments0 := kv :: more in
         dumps (PDict arguments0) ;;;
         let arguments1 := extract_backtick_arguments name arguments0 in
         if name =? "zoom_refresh_token" then call_refresh_token rt arguments1
         else call_resource_tool rt name arguments1
     end)
    (fun e => ret [TextContent ("Error: " ++ exn_msg e)]).

(** ** Vocabulary of the statements *)

(** The state after one more HTTP call. *)
Definition called (w : world) (req : request) : world :=
  {| self := self w; calls := calls w ++ [req] |}.

(** The request [list_recordings] issues. *)
Definition list_recordings_request (rt : Runtime) (zoom : ZoomClient)
    (from_date to_date : pyval) (page_size page_number : Z) : request :=
  let params0 := [("page_size", PInt (Z.min page_size 300));
                  ("page_number", PInt page_number)] in
  let params1 := if truthy from_date then dict_set params0 "from" from_date
                 else params0 in
  let params2 := if truthy to_date then dict_set params1 "to" to_date
                 else params1 in
  mk_request GET (PStr (base_url zoom ++ "/users/me/recordings"))
             (_get_headers rt zoom) params2 [].

(** The request for the recordings of one meeting. *)
Definition meeting_recordings_request (rt : Runtime) (zoom : ZoomClient)
    (meeting_id : pyval) : request :=
  mk_request GET
    (PStr (base_url zoom ++ "/meetings/" ++ py_str rt meeting_id ++ "/recordings"))
    (_get_headers rt zoom) [] [].

(** The request for the body of one transcript file. *)
Definition download_request (rt : Runtime) (zoom : ZoomClient) (download_url : pyval)
  : request :=
  mk_request GET download_url (_get_headers rt zoom) [] [].

(** [{"error": message}] *)
Definition error_object (message : string) : pyval :=
  PDict [("error", PStr message)].

(** [{"error": message, "status": "error"}] *)
Definition error_status_object (message : string) : pyval :=
  PDict [("error", PStr message); ("status", PStr "error")].

(** The text [json.dumps] gives for a value it can serialize. *)
Definition text_of (v : pyval) : string :=
  match json_dumps v with
  | inr s => s
  | inl _ => ""
  end.

(** The error object of a response whose status is not 200. *)
Definition failure_object (what : string) (r : response) : pyval :=
  PDict [("error", PStr ("Failed to retrieve " ++ what ++ ". Status code: "
                         ++ str_of_Z (status_code r)));
         ("details", PStr (text r));
         ("status", PStr "error")].

(** What an operation returns once its request is answered by a response
    that carries a status and, at 200, a body to normalize. *)
Definition resource_reply (rt : Runtime) (what : string) (r : response) : exn + string :=
  if negb (status_code r =? 200)%Z then json_dumps (failure_object what r)
  else match json r with
       | inl e => inl e
       | inr d => json_dumps (convert_datetime_fields rt d)
       end.

Definition is_dict (v : pyval) : bool :=
  match v with PDict _ => true | _ => false end.

(** A recording file whose [file_type] is [TRANSCRIPT]. *)
Definition is_transcript_file (file : pyval) : bool :=
  match file with
  | PDict fd => py_eq_str (dict_get fd "file_type" PNone) "TRANSCRIPT"
  | _ => false
  end.

(** The recording files of a listing: none without the key
    [recording_files], the entries when the key holds a list of objects. *)
Definition recording_files_of (listing : dict) : option (list pyval) :=
  match dict_lookup listing "recording_files" with
  | None => Some []
  | Some (PList files) => if forallb is_dict files then Some files else None
  | Some _ => None
  end.

(** The success payload of [get_meeting_transcript]. *)
Definition transcript_payload (rt : Runtime) (meeting_id : pyval) (listing : dict)
    (transcripts : list pyval) : pyval :=
  PDict [("meeting_id", meeting_id);
         ("topic", dict_get listing "topic" (PStr ""));
         ("meeting_duration", dict_get listing "duration" (PInt 0));
         ("transcripts", convert_datetime_fields rt (PList transcripts));
         ("status", PStr "success")].

(** A transcript file yields no transcript: it has no [download_url], or
    its download is answered, whenever it is asked, with a status other than
    200. *)
Definition download_fails (rt : Runtime) (zoom : ZoomClient) (file : pyval) : Prop :=
  match file with
  | PDict fd =>
      match dict_lookup fd "download_url" with
      | None => True
      | Some download_url =>
          forall log, exists r,
            upstream rt log (download_request rt zoom download_url) = Responds r
            /\ status_code r <> 200%Z
      end
  | _ => False
  end.

(** Values [json.dumps] accepts: no timestamp, no timezone marker. *)
Fixpoint is_json (v : pyval) : bool :=
  match v with
  | PList l => forallb is_json l
  | PDict d => forallb (fun kv => is_json (snd kv)) d
  | PDatetime _ | PTzlocal => false
  | _ => true
  end.

(** The text of one member of an object, as [json_dumps] builds it. *)
Definition member_text (kv : string * pyval) : exn + string :=
  match json_dumps (snd kv) with
  | inl e => inl e
  | inr s => inr (json_string (fst kv) ++ ": " ++ s)
  end.

(** The text of [v], when it has one, parses as a JSON value in front of
    any remainder. *)
Definition dumps_to_value (v : pyval) : Prop :=
  forall s, json_dumps v = inr s -> forall r, json_value (s ++ r) r.

(** An outcome that is a JSON text when it is a result. *)
Definition json_or_raise (r : exn + string) : Prop :=
  match r with
  | inr s => valid_json s
  | inl _ => True
  end.

(** A computation whose result, when it returns one, is a JSON text. *)
Definition replies_json {S} (m : M S string) : Prop :=
  forall st, json_or_raise (fst (m st)).

(** A computation that always returns, and returns a JSON text. *)
Definition always_replies_json {S} (m : M S string) : Prop :=
  forall st, exists s, fst (m st) = inr s /\ valid_json s.




(** The names of the four tools of [handle_list_tools]. *)
Definition registered_tool (name : string) : bool :=
  (name =? "zoom_refresh_token") || (name =? "zoom_list_recordings")
  || (name =? "zoom_get_recording_details")
  || (name =? "zoom_get_meeting_transcript").

(** ** Sample runtimes and clients *)

Definition sample_runtime (net : list request -> request -> http_outcome) : Runtime :=
  {| upstream := net;
     local_offset := "+0800";
     isoformat := fun _ => "2024-05-01T10:00:00";
     expiry_isoformat := fun _ => inr "2024-05-01T11:00:00";
     repr := fun _ => "<repr>";
     b64encode := fun s => s;
     int_of_str := fun _ => None;
     describe := fun _ => "<interpreter error>" |}.

(** A client that holds an access token only. *)
Definition token_client : ZoomClient :=
  {| access_token := PStr "tok"; refresh_token := PNone;
     client_id := PNone; client_secret := PNone;
     base_url := "https://api.zoom.us/v2" |}.

(** A client that holds a refresh token only. *)
Definition refresh_client : ZoomClient :=
  {| access_token := PNone; refresh_token := PStr "rtok";
     client_id := PNone; client_secret := PNone;
     base_url := "https://api.zoom.us/v2" |}.

Definition fresh (zoom : ZoomClient) : world := {| self := zoom; calls := [] |}.

(** An upstream that answers every call with status 401. *)
Definition upstream_401 : list request -> request -> http_outcome :=
  fun _ _ => Responds {| status_code := 401;
                         text := "Invalid access token.";
                         json := inr (PDict [("code", PInt 124);
                                             ("message", PStr "Invalid access token.")]) |}.

(** An upstream on which the HTTP library fails with an unexpected error. *)
Definition upstream_boom : list request -> request -> http_outcome :=
  fun _ _ => Raises (Exception "boom").

(** A listing with a video file only, and one with a transcript file. *)
Definition listing_without_transcript : dict :=
  [("topic", PStr "Standup"); ("duration", PInt 30);
   ("recording_files",
    PList [PDict [("id", PStr "f1"); ("file_type", PStr "MP4");
                  ("download_url", PStr "https://zoom.us/rec/download/f1")]])].

Definition listing_with_transcript : dict :=
  [("topic", PStr "Standup"); ("duration", PInt 30);
   ("recording_files",
    PList [PDict [("id", PStr "f2"); ("file_type", PStr "TRANSCRIPT");
                  ("download_url", PStr "https://zoom.us/rec/download/f2")]])].

Definition listing_response (listing : dict) : response :=
  {| status_code := 200; text := text_of (PDict listing); json := inr (PDict listing) |}.

(** An upstream that serves [listing] for meeting [m1] and answers every
    other request with [download]. *)
Definition upstream_meeting (listing : dict) (download : response)
  : list request -> request -> http_outcome :=
  fun _ req =>
    if py_eq_str (url req) "https://api.zoom.us/v2/meetings/m1/recordings"
    then Responds (listing_response listing)
    else Responds download.

Definition not_found : response :=
  {| status_code := 404; text := "Not Found"; json := inl (RequestException None "Expecting value") |}.

Definition empty_body : response :=
  {| status_code := 200; text := ""; json := inl (RequestException None "Expecting value") |}.

(** ** Further vocabulary *)

(** No string occurs twice. *)
Fixpoint distinct (l : list string) : bool :=
  match l with
  | [] => true
  | k :: l' => negb (existsb (String.eqb k) l') && distinct l'
  end.

(** Values in which the keys of every dict are distinct, as every Python
    dict has them. *)
Fixpoint unique_keys (v : pyval) : bool :=
  match v with
  | PList l => forallb unique_keys l
  | PDict d => distinct (keys d) && forallb (fun kv => unique_keys (snd kv)) d
  | _ => true
  end.

(** The object [_handle_token_refresh] returns for a [RequestException]. *)
Definition request_exception_object (status : option Z) (details : string) : pyval :=
  match status with
  | Some n =>
      if (n =? 401)%Z
      then PDict [("error", PStr "Unauthorized. Token might be expired. Try refreshing your token.");
                  ("details", PStr details)]
      else PDict [("error", PStr ("Zoom API error: " ++ str_of_Z n));
                  ("details", PStr details)]
  | None => PDict [("error", PStr "Request to Zoom API failed");
                   ("details", PStr details)]
  end.

(** The object an operation returns for an exception raised inside it:
    [_handle_token_refresh] answers a [RequestException], the outermost
    [except] any other one. *)
Definition exception_object (e : exn) : pyval :=
  match e with
  | RequestException status details => request_exception_object status details
  | Exception msg => error_object msg
  end.


(** An upstream that gives every call the same outcome. *)
Definition upstream_always (outcome : http_outcome) : list request -> request -> http_outcome :=
  fun _ _ => outcome.

(** The request [refresh_access_token] posts to the token endpoint. *)
Definition token_request (rt : Runtime) (refresh_token_ client_id_ client_secret_ : pyval)
  : request :=
  mk_request POST (PStr "https://zoom.us/oauth/token")
    [("Authorization",
      "Basic " ++ b64encode rt (py_str rt client_id_ ++ ":" ++ py_str rt client_secret_));
     ("Content-Type", "application/x-www-form-urlencoded")]
    []
    [("grant_type", PStr "refresh_token"); ("refresh_token", refresh_token_)].

(** The client after [self.client_id] and [self.client_secret] are stored. *)
Definition with_credentials (zoom : ZoomClient) (client_id_ client_secret_ : pyval)
  : ZoomClient :=
  {| access_token := access_token zoom;
     refresh_token := refresh_token zoom;
     client_id := client_id_;
     client_secret := client_secret_;
     base_url := base_url zoom |}.

(** The client after the tokens of a refresh are stored. *)
Definition with_tokens (zoom : ZoomClient) (access_token_ refresh_token_ : pyval)
  : ZoomClient :=
  {| access_token := access_token_;
     refresh_token := refresh_token_;
     client_id := client_id zoom;
     client_secret := client_secret zoom;
     base_url := base_url zoom |}.

(** The success payload of [refresh_access_token]. *)
Definition refresh_payload (access_token_ refresh_token_ : pyval) (expires_at : string)
    (expires_in : pyval) : pyval :=
  PDict [("access_token", access_token_);
         ("refresh_token", refresh_token_);
         ("expires_at", PStr expires_at);
         ("expires_in", expires_in);
         ("status", PStr "success")].

(** A token endpoint that accepts the refresh and rotates both tokens. *)
Definition token_response : response :=
  {| status_code := 200; text := "";
     json := inr (PDict [("access_token", PStr "new-access");
                         ("refresh_token", PStr "new-refresh");
                         ("expires_in", PInt 3599)]) |}.

(** The [download_url] of a recording file, when it has one. *)
Definition download_url_of (file : pyval) : option pyval :=
  match file with
  | PDict fd => dict_lookup fd "download_url"
  | _ => None
  end.

(** The download URLs of a list of files, in order. *)
Definition file_urls (files : list pyval) : list pyval :=
  flat_map (fun file => match download_url_of file with
                        | Some download_url => [download_url]
                        | None => []
                        end) files.

(** The entry of one downloaded transcript, lines 310-316. *)
Definition transcript_entry (file : pyval) (content : string) : pyval :=
  match file with
  | PDict fd =>
      PDict [("file_id", dict_get fd "id" (PStr ""));
             ("file_name", dict_get fd "file_name" (PStr ""));
             ("recording_start", dict_get fd "recording_start" (PStr ""));
             ("recording_end", dict_get fd "recording_end" (PStr ""));
             ("content", PStr content)]
  | _ => PNone
  end.

(** The entries of the files that have a URL, when the download of URL [u]
    has the body [content u]. *)
Definition transcript_entries (content : pyval -> string) (files : list pyval)
  : list pyval :=
  flat_map (fun file => match download_url_of file with
                        | Some download_url => [transcript_entry file (content download_url)]
                        | None => []
                        end) files.

(** A listing with two transcript files, and an upstream that serves it
    for meeting [m1], answers the first download and fails on any other
    request. *)
Definition listing_two_transcripts : dict :=
  [("topic", PStr "Standup"); ("duration", PInt 30);
   ("recording_files",
    PList [PDict [("id", PStr "f2"); ("file_type", PStr "TRANSCRIPT");
                  ("download_url", PStr "https://zoom.us/rec/download/f2")];
           PDict [("id", PStr "f3"); ("file_type", PStr "TRANSCRIPT");
                  ("download_url", PStr "https://zoom.us/rec/download/f3")]])].

Definition upstream_second_fails : list request -> request -> http_outcome :=
  fun _ req =>
    if py_eq_str (url req) "https://api.zoom.us/v2/meetings/m1/recordings"
    then Responds (listing_response listing_two_transcripts)
    else if py_eq_str (url req) "https://zoom.us/rec/download/f2"
    then Responds {| status_code := 200; text := "WEBVTT";
                     json := inl (RequestException None "Expecting value") |}
    else Raises (RequestException None "connection reset").

(** ** The tool registry *)

(** [mcp.types.Tool] *)
Record Tool := mk_Tool {
  tool_name : string;
  description : string;
  inputSchema : pyval
}.

(** One entry of [properties] in an input schema. *)
Definition schema_property (type_ description_ : string) : pyval :=
  PDict [("type", PStr type_); ("description", PStr description_)].

(** [handle_list_tools], lines 350-407. *)
Definition handle_list_tools : list Tool :=
  [ mk_Tool "zoom_refresh_token"
      "Refresh the Zoom OAuth2 access token using the refresh token and client credentials for API access"
      (PDict
         [("type", PStr "object");
          ("properties",
           PDict [("zoom_access_token",
                   schema_property "string" "Zoom OAuth2 access token (optional if expired)");
                  ("zoom_refresh_token",
                   schema_property "string" "Zoom OAuth2 refresh token");
                  ("zoom_client_id",
                   schema_property "string" "Zoom OAuth2 client ID for token refresh");
                  ("zoom_client_secret",
                   schema_property "string" "Zoom OAuth2 client secret for token refresh")]);
          ("required", PList [PStr "zoom_refresh_token"; PStr "zoom_client_id";
                              PStr "zoom_client_secret"])]);
    mk_Tool "zoom_list_recordings"
      "List Zoom cloud recordings from a user's Zoom account with pagination support"
      (PDict
         [("type", PStr "object");
          ("properties",
           PDict [("zoom_access_token",
                   schema_property "string" "Zoom OAuth2 access token");
                  ("from_date",
                   schema_property "string"
                     "Start date for Zoom recording search in 'YYYY-MM-DD' format");
                  ("to_date",
                   schema_property "string"
                     "End date for Zoom recording search in 'YYYY-MM-DD' format");
                  ("page_size",
                   schema_property "integer"
                     "Number of Zoom recordings to return per page (default: 30, max: 300)");
                  ("page_number",
                   schema_property "integer"
                     "Page number of Zoom recordings to return (default: 1)")]);
          ("required", PList [PStr "zoom_access_token"])]);
    mk_Tool "zoom_get_recording_details"
      "Get detailed information about a specific Zoom meeting recording including recording files and metadata"
      (PDict
         [("type", PStr "object");
          ("properties",
           PDict [("zoom_access_token",
                   schema_property "string" "Zoom OAuth2 access token");
                  ("meeting_id",
                   schema_property "string"
                     "The Zoom meeting ID to retrieve recording details for")]);
          ("required", PList [PStr "zoom_access_token"; PStr "meeting_id"])]);
    mk_Tool "zoom_get_meeting_transcript"
      "Get transcript files and content from a specific Zoom meeting recording if available"
      (PDict
         [("type", PStr "object");
          ("properties",
           PDict [("zoom_access_token",
                   schema_property "string" "Zoom OAuth2 access token");
                  ("meeting_id",
                   schema_property "string"
                     "The Zoom meeting ID to retrieve transcript for")]);
          ("required", PList [PStr "zoom_access_token"; PStr "meeting_id"])]) ].

(** The strings of a list of values. *)
Definition strings_of (l : list pyval) : list string :=
  flat_map (fun v => match v with PStr s => [s] | _ => [] end) l.

(** The [required] list of the input schema of a tool. *)
Definition schema_required (tool : Tool) : list string :=
  match inputSchema tool with
  | PDict schema =>
      match dict_lookup schema "required" with
      | Some (PList fields) => strings_of fields
      | _ => []
      end
  | _ => []
  end.


(** The client the dispatcher builds from an access token. *)
Definition access_client (access_token_ : pyval) : ZoomClient :=
  {| access_token := access_token_; refresh_token := PNone;
     client_id := PNone; client_secret := PNone;
     base_url := "https://api.zoom.us/v2" |}.

(** * Properties *)

(** ** Dicts *)

Lemma dict_set_keys_present d k v :
  In k (keys d) -> keys (dict_set d k v) = keys d.
Proof.
  induction d as [|[k' v'] d IH]; simpl; intros Hin.
  - contradiction.
  - destruct (String.eqb_spec k' k) as [->|Hne]; simpl.
    + reflexivity.
    + destruct Hin as [Heq|Hin]; [congruence|].
      now rewrite IH.
Qed.

Lemma dict_set_fresh d k v :
  ~ In k (keys d) -> dict_set d k v = (d ++ [(k, v)])%list.
Proof.
  induction d as [|[k' v'] d IH]; simpl; intros Hnin.
  - reflexivity.
  - destruct (String.eqb_spec k' k) as [->|Hne].
    + exfalso; apply Hnin; now left.
    + rewrite IH; [reflexivity|]. intros Hin; apply Hnin; now right.
Qed.

Lemma dict_set_NoDup d k v : NoDup (keys d) -> NoDup (keys (dict_set d k v)).
Proof.
  intros Hnd.
  destruct (in_dec string_dec k (keys d)) as [Hin|Hnin].
  - now rewrite dict_set_keys_present.
  - rewrite dict_set_fresh by assumption.
    unfold keys. rewrite map_app. simpl.
    apply NoDup_app; [assumption | repeat constructor; auto | ].
    intros x Hx [<-|[]]. now apply Hnin.
Qed.

Lemma dict_set_Forall (Q : pyval -> Prop) d k v :
  Forall (fun kv => Q (snd kv)) d -> Q v ->
  Forall (fun kv => Q (snd kv)) (dict_set d k v).
Proof.
  induction 1 as [|[k' v'] d Hhd Htl IH]; simpl; intros Hv.
  - repeat constructor; assumption.
  - destruct (k' =? k); constructor; auto.
Qed.

Lemma dict_fold_NoDup items : forall acc,
  NoDup (keys acc) -> NoDup (keys (dict_fold acc items)).
Proof.
  induction items as [|kv items IH]; simpl; intros acc Hnd.
  - assumption.
  - apply IH. now apply dict_set_NoDup.
Qed.

Lemma dict_fold_Forall (Q : pyval -> Prop) items : forall acc,
  Forall (fun kv => Q (snd kv)) acc ->
  Forall (fun kv => Q (snd kv)) items ->
  Forall (fun kv => Q (snd kv)) (dict_fold acc items).
Proof.
  induction items as [|kv items IH]; simpl; intros acc Hacc Hitems.
  - assumption.
  - inversion Hitems; subst. apply IH; [|assumption].
    now apply dict_set_Forall.
Qed.

Lemma dict_fold_unique items : forall acc,
  NoDup (keys (acc ++ items)%list) -> dict_fold acc items = (acc ++ items)%list.
Proof.
  induction items as [|[k v] items IH]; simpl; intros acc Hnd.
  - now rewrite List.app_nil_r.
  - assert (Hnin : ~ In k (keys acc)).
    { unfold keys in *. rewrite map_app in Hnd. simpl in Hnd.
      apply NoDup_remove_2 in Hnd. intros Hin. apply Hnd.
      apply in_or_app. now left. }
    rewrite dict_set_fresh by assumption.
    replace (acc ++ (k, v) :: items)%list with ((acc ++ [(k, v)]) ++ items)%list in *
      by (now rewrite <- List.app_assoc).
    now apply IH.
Qed.

Lemma dict_of_items_NoDup items : NoDup (keys (dict_of_items items)).
Proof. apply (dict_fold_NoDup items []). constructor. Qed.

Lemma dict_of_items_unique d : NoDup (keys d) -> dict_of_items d = d.
Proof. intros Hnd. now apply (dict_fold_unique d []). Qed.

Lemma dict_of_items_Forall (Q : pyval -> Prop) items :
  Forall (fun kv => Q (snd kv)) items ->
  Forall (fun kv => Q (snd kv)) (dict_of_items items).
Proof. intros H. apply (dict_fold_Forall Q items []); auto. Qed.

(** ** The normalizer *)

Lemma map_fixed {A} (f : A -> A) (l : list A) :
  Forall (fun x => f x = x) l -> map f l = l.
Proof. induction 1; simpl; congruence. Qed.

(** C5.  [convert_datetime_fields] is idempotent: a second pass over the
    result of a first pass changes nothing, for every value, nested as it
    may be, whatever the local offset is at the time of the second pass. *)
Theorem convert_datetime_fields_idempotent (rt rt' : Runtime) (v : pyval) :
  convert_datetime_fields rt' (convert_datetime_fields rt v)
  = convert_datetime_fields rt v.
Proof.
  induction v as [| b | n | s | l IH | d IH | dt | ] using pyval_nested_ind;
    simpl; try reflexivity.
  - f_equal. rewrite map_map. apply map_ext_Forall. exact IH.
  - f_equal.
    set (once := dict_of_items
                   (map (fun kv => (fst kv, convert_datetime_fields rt (snd kv))) d)).
    assert (Hfixed : Forall (fun kv => convert_datetime_fields rt' (snd kv) = snd kv) once).
    { apply (dict_of_items_Forall (fun x => convert_datetime_fields rt' x = x)).
      rewrite Forall_map. simpl. exact IH. }
    rewrite (map_fixed (fun kv => (fst kv, convert_datetime_fields rt' (snd kv)))).
    + apply dict_of_items_unique, dict_of_items_NoDup.
    + eapply Forall_impl; [|exact Hfixed].
      intros [k x] Hx; simpl in *. now rewrite Hx.
Qed.

(** ** Running the facade *)

Ltac munfold :=
  unfold _handle_token_refresh, dumps in *;
  unfold try_except, bind, lift, ret, raise, get_self, set_self,
         requests_call, called in *;
  cbv beta zeta in *.

Lemma handle_token_refresh_run (func : M world string) (w : world) :
  _handle_token_refresh func w =
  match func w with
  | (inl e, w') => (request_exception_reply e, w')
  | (inr s, w') => (inr s, w')
  end.
Proof. reflexivity. Qed.

Lemma json_dumps_error_object m :
  json_dumps (error_object m) = inr (text_of (error_object m)).
Proof. reflexivity. Qed.

Lemma json_dumps_error_status_object m :
  json_dumps (error_status_object m) = inr (text_of (error_status_object m)).
Proof. reflexivity. Qed.

Lemma json_dumps_failure_object what r :
  json_dumps (failure_object what r) = inr (text_of (failure_object what r)).
Proof. reflexivity. Qed.

Lemma list_recordings_operation_run rt from_date to_date page_size page_number w :
  list_recordings_operation rt from_date to_date page_size page_number w =
  let req := list_recordings_request rt (self w) from_date to_date page_size page_number in
  match upstream rt (calls w) req with
  | Raises e => (inl e, called w req)
  | Responds r => (resource_reply rt "recordings" r, called w req)
  end.
Proof.
  unfold list_recordings_operation, list_recordings_request, resource_reply.
  munfold. cbv zeta. cbn [self calls].
  destruct (upstream rt _ _) as [r|e]; [|reflexivity].
  destruct (negb _); [reflexivity|].
  destruct (json r); reflexivity.
Qed.

Lemma get_recording_details_operation_run rt meeting_id w :
  get_recording_details_operation rt meeting_id w =
  let req := meeting_recordings_request rt (self w) meeting_id in
  match upstream rt (calls w) req with
  | Raises e => (inl e, called w req)
  | Responds r => (resource_reply rt "recording details" r, called w req)
  end.
Proof.
  unfold get_recording_details_operation, meeting_recordings_request, resource_reply.
  munfold. cbv zeta. cbn [self calls].
  destruct (upstream rt _ _) as [r|e]; [|reflexivity].
  destruct (negb _); [reflexivity|].
  destruct (json r); reflexivity.
Qed.

(** The outermost [except Exception] of the three resource operations. *)
Lemma outer_catch_run (m : M world string) (w : world) :
  try_except m (fun e => dumps (error_object (exn_msg e))) w =
  match m w with
  | (inl e, w') => (json_dumps (error_object (exn_msg e)), w')
  | (inr s, w') => (inr s, w')
  end.
Proof. reflexivity. Qed.

(** C8.  [list_recordings] issues exactly one request, a GET of the user's
    recordings, and its query parameter [page_size] is [min(page_size, 300)]:
    300 for a larger value, the value itself otherwise. *)
Theorem list_recordings_clamps_page_size
    (rt : Runtime) (from_date to_date : pyval) (page_size page_number : Z) (w : world) :
  exists req,
    calls (snd (list_recordings rt from_date to_date page_size page_number w))
      = (calls w ++ [req])%list
    /\ method req = GET
    /\ url req = PStr (base_url (self w) ++ "/users/me/recordings")
    /\ dict_lookup (params req) "page_size" = Some (PInt (Z.min page_size 300))
    /\ Z.min page_size 300 = (if (300 <? page_size)%Z then 300 else page_size)%Z.
Proof.
  exists (list_recordings_request rt (self w) from_date to_date page_size page_number).
  repeat split.
  - unfold list_recordings.
    change (fun e => dumps (PDict [("error", PStr (exn_msg e))]))
      with (fun e => @dumps world (error_object (exn_msg e))).
    rewrite outer_catch_run, handle_token_refresh_run, list_recordings_operation_run.
    cbv zeta.
    destruct (upstream rt _ _) as [r|e].
    + destruct (resource_reply rt "recordings" r) as [e|s]; [|reflexivity].
      destruct (request_exception_reply e); reflexivity.
    + destruct (request_exception_reply e); reflexivity.
  - unfold list_recordings_request; cbn [params].
    destruct (truthy from_date), (truthy to_date); reflexivity.
  - destruct (Z.ltb_spec 300 page_size); lia.
Qed.

(** C6.  A client without a refresh token ([None], the empty string, or any
    other false value): [refresh_access_token], called with a string as
    [client_id], returns the error object
    [{"error": "No refresh token provided", "status": "error"}] and leaves
    the state as it was, so no HTTP call is made. *)
Theorem refresh_without_refresh_token
    (rt : Runtime) (client_id_ : string) (client_secret_ : pyval) (w : world) :
  truthy (refresh_token (self w)) = false ->
  refresh_access_token rt (PStr client_id_) client_secret_ w
    = (inr (text_of (error_status_object "No refresh token provided")), w)
  /\ json_dumps (error_status_object "No refresh token provided")
     = inr (text_of (error_status_object "No refresh token provided"))
  /\ calls (snd (refresh_access_token rt (PStr client_id_) client_secret_ w)) = calls w.
Proof.
  intros Hfalse.
  assert (Hrun : refresh_access_token rt (PStr client_id_) client_secret_ w
                 = (inr (text_of (error_status_object "No refresh token provided")), w)).
  { unfold refresh_access_token. munfold. cbn [py_slice].
    rewrite Hfalse. reflexivity. }
  rewrite Hrun. repeat split.
Qed.


Lemma refresh_without_refresh_token_witness :
  truthy (refresh_token (self (fresh token_client))) = false
  /\ calls (snd (refresh_access_token (sample_runtime upstream_boom)
                   (PStr "client") (PStr "secret") (fresh token_client))) = [].
Proof.
  split; [reflexivity|].
  apply (refresh_without_refresh_token (sample_runtime upstream_boom)
           "client" (PStr "secret") (fresh token_client)).
  reflexivity.
Defined.



(** The wording "Unauthorized" is produced only for a [RequestException]
    that carries a 401 response. *)
Lemma request_exception_401_reply (details : string) :
  request_exception_reply (RequestException (Some 401%Z) details)
  = inr (text_of (PDict
      [("error", PStr "Unauthorized. Token might be expired. Try refreshing your token.");
       ("details", PStr details)])).
Proof. reflexivity. Qed.

(** C3.  An exception [e] that reaches the outermost [except] of an
    operation: the three resource operations return [{"error": str(e)}],
    without a status; [refresh_access_token] returns
    [{"error": str(e), "status": "error"}]. *)
Theorem outermost_catch_reply (rt : Runtime) (w : world) (e : exn) :
  (forall from_date to_date page_size page_number,
      fst (_handle_token_refresh
             (list_recordings_operation rt from_date to_date page_size page_number) w)
      = inl e ->
      fst (list_recordings rt from_date to_date page_size page_number w)
      = inr (text_of (error_object (exn_msg e))))
  /\ (forall meeting_id,
      fst (_handle_token_refresh (get_recording_details_operation rt meeting_id) w)
      = inl e ->
      fst (get_recording_details rt meeting_id w)
      = inr (text_of (error_object (exn_msg e))))
  /\ (forall meeting_id,
      fst (_handle_token_refresh (get_meeting_transcript_operation rt meeting_id) w)
      = inl e ->
      fst (get_meeting_transcript rt meeting_id w)
      = inr (text_of (error_object (exn_msg e))))
  /\ (forall client_id_ client_secret_,
      py_slice rt client_id_ = inr tt ->
      truthy (refresh_token (self w)) = true ->
      fst (refresh_access_token_body rt client_id_ client_secret_ w) = inl e ->
      fst (refresh_access_token rt client_id_ client_secret_ w)
      = inr (text_of (error_status_object (exn_msg e)))).
Proof.
  assert (Hcatch : forall m : M world string,
             fst (m w) = inl e ->
             fst (try_except m (fun e => dumps (error_object (exn_msg e))) w)
             = inr (text_of (error_object (exn_msg e)))).
  { intros m Hm. rewrite outer_catch_run.
    destruct (m w) as [[e'|s] w']; simpl in Hm; [|discriminate].
    injection Hm as ->. reflexivity. }
  repeat split.
  - intros. now apply Hcatch.
  - intros. now apply Hcatch.
  - intros. now apply Hcatch.
  - intros cid cs Hslice Htruthy Hbody.
    unfold refresh_access_token.
    unfold bind at 1. unfold lift at 1. rewrite Hslice.
    unfold bind at 1. unfold get_self at 1. cbv beta iota. rewrite Htruthy.
    cbn [negb]. unfold try_except.
    destruct (refresh_access_token_body rt cid cs w) as [[e'|s] w'];
      simpl in Hbody; [|discriminate].
    injection Hbody as ->. reflexivity.
Qed.

Lemma outermost_catch_reply_witness :
  fst (list_recordings (sample_runtime upstream_boom) PNone PNone 30 1
         (fresh token_client))
  = inr (text_of (error_object "boom"))
  /\ fst (refresh_access_token (sample_runtime upstream_boom)
            (PStr "client") (PStr "secret") (fresh refresh_client))
     = inr (text_of (error_status_object "boom")).
Proof.
  pose proof (outermost_catch_reply (sample_runtime upstream_boom)
                (fresh token_client) (Exception "boom")) as [Hlist _].
  pose proof (outermost_catch_reply (sample_runtime upstream_boom)
                (fresh refresh_client) (Exception "boom")) as [_ [_ [_ Hrefresh]]].
  split.
  - apply Hlist. reflexivity.
  - apply Hrefresh; reflexivity.
Defined.

(** C3, as stated, fails for [refresh_access_token]: the reply of its
    outermost catch has the key "status" besides "error". *)
Lemma refresh_catch_keeps_status :
  fst (refresh_access_token_body (sample_runtime upstream_boom)
         (PStr "client") (PStr "secret") (fresh refresh_client))
  = inl (Exception "boom")
  /\ fst (refresh_access_token (sample_runtime upstream_boom)
            (PStr "client") (PStr "secret") (fresh refresh_client))
     = inr (text_of (PDict [("error", PStr "boom"); ("status", PStr "error")]))
  /\ text_of (PDict [("error", PStr "boom"); ("status", PStr "error")])
     <> text_of (PDict [("error", PStr "boom")]).
Proof.
  repeat split; try reflexivity.
  vm_compute. discriminate.
Qed.

(** ** Transcripts *)

Lemma sum_filterM_file_type rt files :
  forallb is_dict files = true ->
  sum_filterM (file_is_transcript rt) files = inr (filter is_transcript_file files).
Proof.
  induction files as [|file files IH]; simpl; intros Hdicts.
  - reflexivity.
  - apply andb_true_iff in Hdicts as [Hfile Hfiles].
    destruct file; try discriminate.
    unfold file_is_transcript at 1. cbn [py_get is_transcript_file].
    rewrite (IH Hfiles). reflexivity.
Qed.

Lemma select_transcript_files_listing rt listing files :
  recording_files_of listing = Some files ->
  select_transcript_files rt (PDict listing) = inr (filter is_transcript_file files).
Proof.
  unfold recording_files_of, select_transcript_files.
  cbn [py_in py_getitem]. unfold dict_has.
  destruct (dict_lookup listing "recording_files") as [v|].
  - destruct v; try discriminate.
    destruct (forallb is_dict items) eqn:Hdicts; [|discriminate].
    intros [= <-]. cbn [py_iter]. now apply sum_filterM_file_type.
  - intros [= <-]. reflexivity.
Qed.

Lemma filter_none {A} (p : A -> bool) (l : list A) :
  existsb p l = false -> filter p l = [].
Proof.
  induction l as [|x l IH]; simpl; [reflexivity|].
  destruct (p x); simpl; [discriminate|exact IH].
Qed.

Lemma filter_some {A} (p : A -> bool) (l : list A) :
  existsb p l = true -> filter p l <> [].
Proof.
  induction l as [|x l IH]; simpl; [discriminate|].
  destruct (p x); simpl; [discriminate|exact IH].
Qed.

(** C7.  A listing answered with status 200 whose recording files (none
    when the key [recording_files] is absent) include no file of type
    TRANSCRIPT: [get_meeting_transcript] returns
    [{"error": "No transcript files found for this meeting", "status": "error"}]
    and the listing request is the only HTTP call. *)
Theorem no_transcript_files_reply
    (rt : Runtime) (meeting_id : pyval) (w : world) (r : response)
    (listing : dict) (files : list pyval) :
  upstream rt (calls w) (meeting_recordings_request rt (self w) meeting_id) = Responds r ->
  status_code r = 200%Z ->
  json r = inr (PDict listing) ->
  recording_files_of listing = Some files ->
  existsb is_transcript_file files = false ->
  get_meeting_transcript rt meeting_id w
  = (inr (text_of (error_status_object "No transcript files found for this meeting")),
     called w (meeting_recordings_request rt (self w) meeting_id)).
Proof.
  intros Hup Hstatus Hjson Hfiles Hnone.
  unfold get_meeting_transcript, get_meeting_transcript_operation.
  unfold meeting_recordings_request in *. munfold.
  rewrite Hup, Hstatus, Hjson. cbn [negb Z.eqb Pos.eqb].
  rewrite (select_transcript_files_listing rt listing files Hfiles).
  rewrite (filter_none _ _ Hnone). reflexivity.
Qed.

Lemma no_transcript_files_reply_witness :
  recording_files_of listing_without_transcript
  = Some [PDict [("id", PStr "f1"); ("file_type", PStr "MP4");
                 ("download_url", PStr "https://zoom.us/rec/download/f1")]]
  /\ calls (snd (get_meeting_transcript
                   (sample_runtime (upstream_meeting listing_without_transcript not_found))
                   (PStr "m1") (fresh token_client)))
     = [meeting_recordings_request
          (sample_runtime (upstream_meeting listing_without_transcript not_found))
          token_client (PStr "m1")].
Proof.
  split; [reflexivity|].
  rewrite (no_transcript_files_reply
             (sample_runtime (upstream_meeting listing_without_transcript not_found))
             (PStr "m1") (fresh token_client)
             (listing_response listing_without_transcript)
             listing_without_transcript
             [PDict [("id", PStr "f1"); ("file_type", PStr "MP4");
                     ("download_url", PStr "https://zoom.us/rec/download/f1")]]);
    reflexivity.
Defined.

Lemma json_dumps_is_json (v : pyval) :
  is_json v = true -> json_dumps v = inr (text_of v).
Proof.
  intros Hjson. unfold text_of.
  enough (exists s, json_dumps v = inr s) as [s ->] by reflexivity.
  revert Hjson.
  induction v as [| b | n | s | l IH | d IH | dt | ] using pyval_nested_ind;
    cbn [json_dumps is_json]; intros Hjson; try discriminate; eauto.
  - destruct b; eauto.
  - assert (Hparts : exists parts, sum_mapM json_dumps l = inr parts).
    { induction IH as [|x l Hx _ IHl]; cbn [sum_mapM forallb] in *; [eauto|].
      apply andb_true_iff in Hjson as [Hjx Hjl].
      destruct (Hx Hjx) as [s ->]. destruct (IHl Hjl) as [parts ->]. eauto. }
    destruct Hparts as [parts ->]. eauto.
  - assert (Hparts : exists parts,
               sum_mapM (fun kv => match json_dumps (snd kv) with
                                   | inl e => inl e
                                   | inr s => inr (json_string (fst kv) ++ ": " ++ s)
                                   end) d = inr parts).
    { induction IH as [|x l Hx _ IHl]; cbn [sum_mapM forallb] in *; [eauto|].
      apply andb_true_iff in Hjson as [Hjx Hjl].
      destruct (Hx Hjx) as [s ->]. destruct (IHl Hjl) as [parts ->]. eauto. }
    destruct Hparts as [parts ->]. eauto.
Qed.

Lemma is_json_dict_get (d : dict) (k : string) (default : pyval) :
  is_json (PDict d) = true -> is_json default = true ->
  is_json (dict_get d k default) = true.
Proof.
  unfold dict_get. intros Hd Hdefault.
  induction d as [|[k' v] d IH]; simpl in *; [assumption|].
  apply andb_true_iff in Hd as [Hv Hd].
  destruct (k' =? k); [assumption|]. now apply IH.
Qed.

Lemma fetch_transcripts_all_fail rt zoom files :
  Forall (download_fails rt zoom) files ->
  forall acc w, self w = zoom ->
  exists w', fetch_transcripts rt files acc w = (inr acc, w') /\ self w' = zoom.
Proof.
  induction 1 as [|file files Hfile _ IH]; intros acc w Hself.
  - exists w. split; [reflexivity|assumption].
  - destruct file; try contradiction.
    cbn [fetch_transcripts download_fails] in *. munfold.
    cbn [py_in py_getitem]. unfold dict_has.
    destruct (dict_lookup items "download_url") as [download_url|].
    + destruct (Hfile (calls w)) as [r [Hup Hstatus]].
      unfold download_request in Hup. rewrite Hself, Hup.
      apply Z.eqb_neq in Hstatus. rewrite Hstatus.
      apply IH. reflexivity.
    + now apply IH.
Qed.

(** C10.  A listing with at least one transcript file, where every
    transcript file lacks a [download_url] or has its download answered with
    a status other than 200: [get_meeting_transcript] returns the success
    payload with an empty [transcripts] list, status "success" and no error
    key, the same payload whichever of the two causes applies. *)
Theorem failed_downloads_reported_as_success
    (rt : Runtime) (meeting_id : pyval) (w : world) (r : response)
    (listing : dict) (files : list pyval) :
  upstream rt (calls w) (meeting_recordings_request rt (self w) meeting_id) = Responds r ->
  status_code r = 200%Z ->
  json r = inr (PDict listing) ->
  recording_files_of listing = Some files ->
  existsb is_transcript_file files = true ->
  Forall (download_fails rt (self w)) (filter is_transcript_file files) ->
  is_json meeting_id = true ->
  is_json (PDict listing) = true ->
  fst (get_meeting_transcript rt meeting_id w)
  = inr (text_of (PDict [("meeting_id", meeting_id);
                         ("topic", dict_get listing "topic" (PStr ""));
                         ("meeting_duration", dict_get listing "duration" (PInt 0));
                         ("transcripts", PList []);
                         ("status", PStr "success")])).
Proof.
  intros Hup Hstatus Hjson Hfiles Hsome Hfail Hmid Hlisting.
  unfold get_meeting_transcript, get_meeting_transcript_operation.
  unfold meeting_recordings_request in *. munfold.
  rewrite Hup, Hstatus, Hjson. cbn [negb Z.eqb Pos.eqb].
  rewrite (select_transcript_files_listing rt listing files Hfiles).
  apply filter_some in Hsome.
  destruct (filter is_transcript_file files) as [|file rest]; [congruence|].
  match goal with
  | |- context [fetch_transcripts rt ?f ?a ?w1] =>
      destruct (fetch_transcripts_all_fail rt (self w) f Hfail a w1 eq_refl)
        as [w' [-> _]]
  end.
  cbn [py_get convert_datetime_fields map].
  rewrite json_dumps_is_json; [reflexivity|].
  cbn [is_json forallb snd]. rewrite Hmid.
  rewrite !is_json_dict_get; auto.
Qed.

Lemma failed_downloads_reported_as_success_witness :
  existsb is_transcript_file
    [PDict [("id", PStr "f2"); ("file_type", PStr "TRANSCRIPT");
            ("download_url", PStr "https://zoom.us/rec/download/f2")]] = true
  /\ fst (get_meeting_transcript
            (sample_runtime (upstream_meeting listing_with_transcript not_found))
            (PStr "m1") (fresh token_client))
     = inr (text_of (PDict [("meeting_id", PStr "m1");
                            ("topic", PStr "Standup");
                            ("meeting_duration", PInt 30);
                            ("transcripts", PList []);
                            ("status", PStr "success")])).
Proof.
  split; [reflexivity|].
  apply (failed_downloads_reported_as_success
           (sample_runtime (upstream_meeting listing_with_transcript not_found))
           (PStr "m1") (fresh token_client)
           (listing_response listing_with_transcript)
           listing_with_transcript
           [PDict [("id", PStr "f2"); ("file_type", PStr "TRANSCRIPT");
                   ("download_url", PStr "https://zoom.us/rec/download/f2")]]);
    try reflexivity.
  simpl. constructor; [|constructor].
  intros log. exists not_found. split; [reflexivity|discriminate].
Defined.

(** C10, as stated, fails in its comparison: a transcript that downloads
    with an empty body appears in [transcripts] as an entry with empty
    content, so the caller tells that payload from the one of the failed
    download, whose [transcripts] list is empty. *)
Lemma empty_transcript_is_distinguishable :
  let failed :=
    fst (get_meeting_transcript
           (sample_runtime (upstream_meeting listing_with_transcript not_found))
           (PStr "m1") (fresh token_client)) in
  let downloaded_empty :=
    fst (get_meeting_transcript
           (sample_runtime (upstream_meeting listing_with_transcript empty_body))
           (PStr "m1") (fresh token_client)) in
  failed
  = inr (text_of (PDict [("meeting_id", PStr "m1");
                         ("topic", PStr "Standup");
                         ("meeting_duration", PInt 30);
                         ("transcripts", PList []);
                         ("status", PStr "success")]))
  /\ downloaded_empty
     = inr (text_of (PDict [("meeting_id", PStr "m1");
                            ("topic", PStr "Standup");
                            ("meeting_duration", PInt 30);
                            ("transcripts",
                             PList [PDict [("file_id", PStr "f2");
                                           ("file_name", PStr "");
                                           ("recording_start", PStr "");
                                           ("recording_end", PStr "");
                                           ("content", PStr "")]]);
                            ("status", PStr "success")]))
  /\ failed <> downloaded_empty.
Proof.
  cbv zeta. repeat split; try (vm_compute; reflexivity).
  vm_compute. discriminate.
Qed.

(** ** The repair of collapsed arguments *)

Lemma strip_prefix_app (p q s r : string) :
  strip_prefix (p ++ q) s = Some r -> exists r', strip_prefix p s = Some r'.
Proof.
  revert s. induction p as [|a p IH]; intros s; simpl.
  - eauto.
  - destruct s as [|b s]; [discriminate|].
    destruct (Ascii.eqb a b); [apply IH|discriminate].
Qed.

Lemma append_cons_assoc (field : string) (a b : ascii) :
  field ++ String a (String b "") = (field ++ String a "") ++ String b "".
Proof. induction field as [|c field IH]; simpl; [reflexivity|now rewrite IH]. Qed.

Lemma match_backtick_pair_prefix (field s v : string) :
  match_backtick_pair field s = Some v ->
  exists r, strip_prefix (String backtick (field ++ String backtick "")) s = Some r.
Proof.
  unfold match_backtick_pair.
  destruct (strip_prefix (String backtick (field ++ String backtick ":")) s)
    as [rest|] eqn:Hprefix; [|discriminate].
  intros _. rewrite append_cons_assoc in Hprefix.
  exact (strip_prefix_app (String backtick (field ++ String backtick "")) ":" s rest Hprefix).
Qed.

(** A match of the pattern of a field contains the backtick-quoted name of
    the field. *)
Lemma re_search_backtick_pair_contains (field s v : string) :
  re_search_backtick_pair field s = Some v ->
  str_contains (String backtick (field ++ String backtick "")) s = true.
Proof.
  induction s as [|c s IH]; cbn [re_search_backtick_pair str_contains].
  - destruct (match_backtick_pair field "") eqn:Hm; [|discriminate].
    intros _. now destruct (match_backtick_pair_prefix _ _ _ Hm) as [r ->].
  - destruct (match_backtick_pair field (String c s)) eqn:Hm.
    + intros _. now destruct (match_backtick_pair_prefix _ _ _ Hm) as [r ->].
    + intros Hs.
      destruct (strip_prefix _ (String c s)); [reflexivity|]. now apply IH.
Qed.

(** C9.  For the tool [zoom_refresh_token] and a mapping with one key: when
    the three patterns match the key, the arguments become the three
    extracted values under their own keys; when one of them does not match,
    the arguments stay as they were.  The key of the specification yields
    [abc], [id1] and [sec1], and the dispatcher then answers as it does for
    the three arguments passed one by one. *)
Theorem extract_backtick_arguments_spec (key : string) (v : pyval) :
  match re_search_backtick_pair "zoom_refresh_token" key,
        re_search_backtick_pair "zoom_client_id" key,
        re_search_backtick_pair "zoom_client_secret" key with
  | Some refresh_token_, Some client_id_, Some client_secret_ =>
      extract_backtick_arguments "zoom_refresh_token" [(key, v)]
      = [("zoom_refresh_token", PStr refresh_token_);
         ("zoom_client_id", PStr client_id_);
         ("zoom_client_secret", PStr client_secret_)]
  | _, _, _ =>
      extract_backtick_arguments "zoom_refresh_token" [(key, v)] = [(key, v)]
  end
  /\ extract_backtick_arguments "zoom_refresh_token"
       [("`zoom_refresh_token`: `abc`, `zoom_client_id`: `id1`, `zoom_client_secret`: `sec1`", v)]
     = [("zoom_refresh_token", PStr "abc");
        ("zoom_client_id", PStr "id1");
        ("zoom_client_secret", PStr "sec1")]
  /\ forall (rt : Runtime) (x : string) (log : list request),
       handle_call_tool rt "zoom_refresh_token"
         (Some [("`zoom_refresh_token`: `abc`, `zoom_client_id`: `id1`, `zoom_client_secret`: `sec1`", PStr x)])
         log
       = handle_call_tool rt "zoom_refresh_token"
           (Some [("zoom_refresh_token", PStr "abc");
                  ("zoom_client_id", PStr "id1");
                  ("zoom_client_secret", PStr "sec1")])
           log.
Proof.
  split; [|split].
  - unfold extract_backtick_arguments.
    change (("zoom_refresh_token" =? "zoom_refresh_token")
            && (length [(key, v)] =? 1)%nat) with true.
    cbv iota.
    destruct (re_search_backtick_pair "zoom_refresh_token" key) as [a|] eqn:Ha;
      [|now destruct (_ && _)].
    destruct (re_search_backtick_pair "zoom_client_id" key) as [b|] eqn:Hb;
      [|now destruct (_ && _)].
    destruct (re_search_backtick_pair "zoom_client_secret" key) as [c|] eqn:Hc;
      [|now destruct (_ && _)].
    apply re_search_backtick_pair_contains in Ha, Hb, Hc.
    cbn [append] in Ha, Hb, Hc. unfold backtick in Ha, Hb, Hc.
    rewrite Ha, Hb, Hc. reflexivity.
  - reflexivity.
  - intros rt x log. reflexivity.
Qed.

(** ** The texts of [json_dumps] are JSON *)

Lemma str_app_assoc (a b c : string) : (a ++ b) ++ c = a ++ (b ++ c).
Proof. induction a as [|x a IH]; simpl; [reflexivity|now rewrite IH]. Qed.

Lemma str_app_nil_r (a : string) : a ++ "" = a.
Proof. induction a as [|x a IH]; simpl; [reflexivity|now rewrite IH]. Qed.

(** Integers *)

Lemma nzhead_not_zero (d d' : Decimal.uint) : Decimal.nzhead d <> Decimal.D0 d'.
Proof. induction d; simpl; try discriminate. exact IHd. Qed.

Lemma to_uint_head (p : positive) :
  forall d', Pos.to_uint p <> Decimal.D0 d'.
Proof.
  intros d' Heq.
  assert (Hnorm : Decimal.unorm (Pos.to_uint p) = Pos.to_uint p).
  { rewrite <- DecimalPos.Unsigned.to_of, DecimalPos.Unsigned.of_to. reflexivity. }
  rewrite Heq in Hnorm. unfold Decimal.unorm in Hnorm. simpl in Hnorm.
  destruct (Decimal.nzhead d') eqn:Hhead; try discriminate.
  - injection Hnorm as <-.
    apply (Unsigned.to_uint_nonzero p). exact Heq.
  - exact (nzhead_not_zero _ _ Hhead).
Qed.

Lemma digits_of_uint (d : Decimal.uint) (r : string) :
  d <> Decimal.Nil -> json_digits (NilEmpty.string_of_uint d ++ r) r.
Proof.
  induction d; intros Hne; try congruence; simpl;
    (destruct d; [apply digits_one; reflexivity
                 | apply digits_more; [reflexivity|apply IHd; discriminate] ..]).
Qed.

Lemma int_of_uint (d : Decimal.uint) (r : string) :
  d <> Decimal.Nil -> (forall d', d <> Decimal.D0 d') ->
  json_int (NilEmpty.string_of_uint d ++ r) r.
Proof.
  intros Hne Hhead.
  destruct d; try congruence; try (exfalso; eapply Hhead; reflexivity); simpl;
    (destruct d; [apply int_digit; reflexivity
                 | apply int_digits; [reflexivity|apply digits_of_uint; discriminate] ..]).
Qed.

Lemma number_of_Z (n : Z) (r : string) : json_number (str_of_Z n ++ r) r.
Proof.
  unfold str_of_Z. destruct n as [|p|p]; simpl.
  - apply number_pos with (s1 := r) (s2 := r); constructor.
  - apply number_pos with (s1 := r) (s2 := r); try constructor.
    unfold NilZero.string_of_uint.
    pose proof (Unsigned.to_uint_nonnil p) as Hne.
    pose proof (to_uint_head p) as Hhead.
    destruct (Pos.to_uint p) eqn:E; try congruence; rewrite <- E in *.
    all: apply int_of_uint; assumption.
  - 
    unfold NilZero.string_of_uint.
    pose proof (Unsigned.to_uint_nonnil p) as Hne.
    pose proof (to_uint_head p) as Hhead.
    destruct (Pos.to_uint p) eqn:E; try congruence; rewrite <- E in *.
    all: simpl.
    all: apply number_neg with (s1 := r) (s2 := r); try constructor.
    all: apply int_of_uint; assumption.
Qed.

(** String literals *)

Lemma chars_of_escape_body (s r : string) :
  json_chars (escape_body s ++ String dquote r) r.
Proof.
  induction s as [|c s IH]; simpl.
  - apply chars_end.
  - rewrite str_app_assoc.
    destruct c as [[|] [|] [|] [|] [|] [|] [|] [|]];
      first [ apply chars_plain; [reflexivity|exact IH]
            | apply chars_escape; [reflexivity|exact IH]
            | apply chars_unicode; [reflexivity|reflexivity|reflexivity|reflexivity|exact IH] ].
Qed.

Lemma value_of_json_string (s r : string) : json_value (json_string s ++ r) r.
Proof.
  unfold json_string. simpl. rewrite str_app_assoc. simpl.
  apply value_string, chars_of_escape_body.
Qed.

Lemma elements_ws (s r : string) :
  json_elements s r -> json_elements (String " " s) r.
Proof.
  intros H. inversion H; subst.
  - eapply elements_last; [apply ws_skip; [reflexivity|eassumption]|eassumption..].
  - eapply elements_more; [apply ws_skip; [reflexivity|eassumption]|eassumption..].
Qed.

Lemma members_ws (s r : string) :
  json_members s r -> json_members (String " " s) r.
Proof.
  intros H. inversion H; subst.
  - eapply members_last; [apply ws_skip; [reflexivity|eassumption]|eassumption..].
  - eapply members_more; [apply ws_skip; [reflexivity|eassumption]|eassumption..].
Qed.

Lemma elements_of_parts (l : list pyval) :
  Forall dumps_to_value l ->
  forall parts, sum_mapM json_dumps l = inr parts -> parts <> [] ->
  forall r, json_elements (str_join ", " parts ++ String "]" r) r.
Proof.
  induction 1 as [|x l Hx _ IH]; cbn [sum_mapM]; intros parts Hparts Hne r.
  - injection Hparts as <-. congruence.
  - destruct (json_dumps x) as [e|p] eqn:Hp; [discriminate|].
    destruct (sum_mapM json_dumps l) as [e|ps]; [discriminate|].
    injection Hparts as <-.
    destruct ps as [|q qs].
    + cbn [str_join].
      eapply elements_last; [apply ws_done | apply (Hx p Hp) | apply ws_done].
    + change (str_join ", " (p :: q :: qs)) with (p ++ ", " ++ str_join ", " (q :: qs)).
      rewrite str_app_assoc. 
      eapply elements_more; [apply ws_done | apply (Hx p Hp) | | ].
      * cbn [append]. apply ws_done.
      * apply elements_ws.
        apply IH; [reflexivity|discriminate].
Qed.

Lemma member_of_text (k p rest s5 r : string) :
  json_value (p ++ rest) s5 ->
  json_ws s5 (String "}" r)
  \/ (exists s6, json_ws s5 (String "," s6) /\ json_members s6 r) ->
  json_members ((json_string k ++ ": " ++ p) ++ rest) r.
Proof.
  intros Hv Hend.
  unfold json_string.
  repeat first [rewrite str_app_assoc | progress cbn [append]].
  destruct Hend as [Hend|[s6 [Hcomma Hmore]]].
  - eapply members_last;
      [apply ws_done | apply chars_of_escape_body | apply ws_done
      | apply ws_skip; [reflexivity|apply ws_done] | exact Hv | exact Hend].
  - eapply members_more;
      [apply ws_done | apply chars_of_escape_body | apply ws_done
      | apply ws_skip; [reflexivity|apply ws_done] | exact Hv | exact Hcomma
      | exact Hmore].
Qed.

Lemma members_of_parts (d : list (string * pyval)) :
  Forall (fun kv => dumps_to_value (snd kv)) d ->
  forall parts, sum_mapM member_text d = inr parts -> parts <> [] ->
  forall r, json_members (str_join ", " parts ++ String "}" r) r.
Proof.
  induction 1 as [|[k x] d Hx _ IH]; cbn [sum_mapM]; intros parts Hparts Hne r.
  - injection Hparts as <-. congruence.
  - unfold member_text at 1 in Hparts. cbn [fst snd] in Hparts, Hx.
    destruct (json_dumps x) as [e|p] eqn:Hp; [discriminate|].
    destruct (sum_mapM member_text d) as [e|ps]; [discriminate|].
    set (m := json_string k ++ ": " ++ p) in *.
    assert (Heq : parts = m :: ps) by congruence. subst parts. clear Hparts.
    destruct ps as [|q qs].
    + cbn [str_join]. subst m.
      apply (member_of_text k p (String "}" r) (String "}" r)); [apply (Hx p Hp)|].
      left. apply ws_done.
    + change (str_join ", " (m :: q :: qs))
        with (m ++ ", " ++ str_join ", " (q :: qs)).
      rewrite str_app_assoc. subst m.
      apply (member_of_text k p _ ((", " ++ str_join ", " (q :: qs)) ++ String "}" r));
        [apply (Hx p Hp)|].
      right. rewrite str_app_assoc. cbn [append]. eexists. split; [apply ws_done|].
      apply members_ws. apply IH; [reflexivity|discriminate].
Qed.

Lemma json_dumps_value (v : pyval) : dumps_to_value v.
Proof.
  unfold dumps_to_value.
  induction v as [| b | n | s | l IH | d IH | dt | ] using pyval_nested_ind;
    cbn [json_dumps]; intros t Ht r; try discriminate.
  - injection Ht as <-. apply value_null.
  - destruct b; injection Ht as <-; [apply value_true|apply value_false].
  - injection Ht as <-. apply value_number, number_of_Z.
  - injection Ht as <-. apply value_of_json_string.
  - destruct (sum_mapM json_dumps l) as [e|parts] eqn:Hparts; [discriminate|].
    injection Ht as <-. cbn [append]. rewrite str_app_assoc. cbn [append].
    destruct parts as [|p ps].
    + apply value_array_empty, ws_done.
    + apply value_array. eapply elements_of_parts; [exact IH|exact Hparts|discriminate].
  - change (sum_mapM _ d) with (sum_mapM member_text d) in Ht.
    destruct (sum_mapM member_text d) as [e|parts] eqn:Hparts; [discriminate|].
    injection Ht as <-. cbn [append]. rewrite str_app_assoc. cbn [append].
    destruct parts as [|p ps].
    + apply value_object_empty, ws_done.
    + apply value_object. eapply members_of_parts; [exact IH|exact Hparts|discriminate].
Qed.

Theorem json_dumps_valid (v : pyval) (s : string) :
  json_dumps v = inr s -> valid_json s.
Proof.
  intros H. exists s, "". repeat split; try apply ws_done.
  rewrite <- (str_app_nil_r s) at 1. exact (json_dumps_value v s H "").
Qed.


(** ** Every reply is one text segment *)

Lemma replies_json_dumps {S} (v : pyval) : replies_json (@dumps S v).
Proof.
  intros st. unfold dumps, lift. cbn [fst].
  destruct (json_dumps v) as [e|s] eqn:Hv; cbn; [exact I|].
  exact (json_dumps_valid v s Hv).
Qed.

Lemma replies_json_raise {S} (e : exn) : replies_json (@raise S string e).
Proof. intros st. exact I. Qed.

Lemma replies_json_bind {S A} (m : M S A) (k : A -> M S string) :
  (forall a, replies_json (k a)) -> replies_json (bind m k).
Proof.
  intros Hk st. unfold bind.
  destruct (m st) as [[e|a] st']; [exact I|apply Hk].
Qed.

Lemma replies_json_try {S} (m : M S string) (h : exn -> M S string) :
  replies_json m -> (forall e, replies_json (h e)) -> replies_json (try_except m h).
Proof.
  intros Hm Hh st. unfold try_except.
  specialize (Hm st). destruct (m st) as [[e|s] st']; [apply Hh|exact Hm].
Qed.

Lemma always_replies_json_try {S} (m : M S string) (h : exn -> M S string) :
  replies_json m -> (forall e, always_replies_json (h e)) ->
  always_replies_json (try_except m h).
Proof.
  intros Hm Hh st. unfold try_except.
  specialize (Hm st). destruct (m st) as [[e|s] st']; [apply Hh|].
  exists s. split; [reflexivity|exact Hm].
Qed.

Lemma always_replies_json_error_object {S} (msg : string) :
  always_replies_json (@dumps S (PDict [("error", PStr msg)])).
Proof.
  intros st. exists (text_of (error_object msg)). split; [reflexivity|].
  apply (json_dumps_valid (error_object msg)). reflexivity.
Qed.

Lemma replies_json_handle_token_refresh (func : M world string) :
  replies_json func -> replies_json (_handle_token_refresh func).
Proof.
  intros Hfunc. apply replies_json_try; [exact Hfunc|].
  intros e st. unfold lift. cbn [fst].
  destruct e as [[status|] details|msg]; cbn [request_exception_reply].
  - destruct (status =? 401)%Z; apply (replies_json_dumps _ st).
  - apply (replies_json_dumps _ st).
  - exact I.
Qed.

Ltac json_steps :=
  repeat first
    [ apply replies_json_dumps
    | apply replies_json_raise
    | apply replies_json_handle_token_refresh
    | apply replies_json_bind; intros ?
    | match goal with
      | |- replies_json (if ?c then _ else _) => destruct c
      | |- replies_json (match ?x with _ => _ end) => destruct x
      end ].

Lemma replies_json_list_recordings_operation rt from_date to_date page_size page_number :
  replies_json (list_recordings_operation rt from_date to_date page_size page_number).
Proof. unfold list_recordings_operation. cbv zeta. json_steps. Qed.



Lemma always_replies_json_list_recordings rt from_date to_date page_size page_number :
  always_replies_json (list_recordings rt from_date to_date page_size page_number).
Proof.
  apply always_replies_json_try.
  - apply replies_json_handle_token_refresh, replies_json_list_recordings_operation.
  - intros e. apply always_replies_json_error_object.
Qed.
















(** ** Unknown tools *)

Lemma extract_backtick_arguments_other (name : string) (arguments : dict) :
  (name =? "zoom_refresh_token") = false ->
  extract_backtick_arguments name arguments = arguments.
Proof. intros Hname. unfold extract_backtick_arguments. now rewrite Hname. Qed.

(** C4.  A name that is none of the four tools, with a non-empty mapping of
    JSON values: the reply is the text ["Error: Unknown tool: "] followed by
    the name when the mapping holds a true [zoom_access_token], and the text
    ["Error: zoom_access_token is required"] when it does not; no HTTP call
    is made. *)
Theorem unknown_tool_reply
    (rt : Runtime) (name : string) (kv : string * pyval) (more : dict)
    (log : list request) :
  registered_tool name = false ->
  is_json (PDict (kv :: more)) = true ->
  handle_call_tool rt name (Some (kv :: more)) log
  = (inr [TextContent
            (if truthy (dict_get (kv :: more) "zoom_access_token" PNone)
             then "Error: Unknown tool: " ++ name
             else "Error: zoom_access_token is required")],
     log).
Proof.
  intros Hname Hjson. unfold registered_tool in Hname.
  apply orb_false_iff in Hname as [Hname Htranscript].
  apply orb_false_iff in Hname as [Hname Hdetails].
  apply orb_false_iff in Hname as [Hrefresh Hlist].
  unfold handle_call_tool. cbv zeta.
  rewrite (extract_backtick_arguments_other name (kv :: more) Hrefresh), Hrefresh.
  unfold call_resource_tool. cbv zeta.
  rewrite Hlist, Hdetails, Htranscript.
  unfold try_except, bind, dumps, lift, raise, ret.
  rewrite (json_dumps_is_json _ Hjson).
  destruct (truthy (dict_get (kv :: more) "zoom_access_token" PNone)); reflexivity.
Qed.

Lemma unknown_tool_reply_witness :
  registered_tool "zoom_delete_recording" = false
  /\ fst (handle_call_tool (sample_runtime upstream_boom) "zoom_delete_recording"
            (Some [("zoom_access_token", PStr "tok")]) [])
     = inr [TextContent "Error: Unknown tool: zoom_delete_recording"].
Proof.
  split; [reflexivity|].
  rewrite (unknown_tool_reply (sample_runtime upstream_boom) "zoom_delete_recording"
             ("zoom_access_token", PStr "tok") [] []); reflexivity.
Defined.

(** C4, as stated, fails: an unknown tool called with arguments that hold
    no access token is answered with the missing-token error, which does not
    name the tool. *)
Lemma unknown_tool_without_token :
  fst (handle_call_tool (sample_runtime upstream_boom) "zoom_delete_recording"
         (Some [("meeting_id", PStr "m1")]) [])
  = inr [TextContent "Error: zoom_access_token is required"]
  /\ str_contains "Unknown tool: zoom_delete_recording"
       "Error: zoom_access_token is required" = false.
Proof. split; reflexivity. Qed.

(** * Further properties *)

(** ** The normalizer on JSON values *)

Lemma distinct_NoDup (l : list string) : distinct l = true -> NoDup l.
Proof.
  induction l as [|k l IH]; simpl; intros H; constructor.
  - apply andb_true_iff in H as [H _]. apply negb_true_iff in H.
    intros Hin. apply (in_map (String.eqb k)) in Hin. rewrite String.eqb_refl in Hin.
    assert (Hex : existsb (String.eqb k) l = true).
    { apply existsb_exists. apply in_map_iff in Hin as [x [Hx Hin]].
      exists x. split; assumption. }
    congruence.
  - apply andb_true_iff in H as [_ H]. now apply IH.
Qed.

Lemma is_json_convert_datetime_fields (rt : Runtime) (v : pyval) :
  is_json (convert_datetime_fields rt v) = true.
Proof.
  induction v as [| b | n | s | l IH | d IH | dt | ] using pyval_nested_ind;
    cbn [convert_datetime_fields is_json]; try reflexivity.
  - apply forallb_forall. intros x Hx.
    apply in_map_iff in Hx as [y [<- Hy]].
    rewrite Forall_forall in IH. now apply IH.
  - apply forallb_forall. intros kv Hkv.
    assert (Hall : Forall (fun kv => is_json (snd kv) = true)
                     (dict_of_items
                        (map (fun kv => (fst kv, convert_datetime_fields rt (snd kv))) d))).
    { apply (dict_of_items_Forall (fun x => is_json x = true)).
      rewrite Forall_map. exact IH. }
    rewrite Forall_forall in Hall. now apply Hall.
Qed.


Lemma convert_datetime_fields_fixed (rt : Runtime) (v : pyval) :
  is_json v = true -> unique_keys v = true -> convert_datetime_fields rt v = v.
Proof.
  induction v as [| b | n | s | l IH | d IH | dt | ] using pyval_nested_ind;
    cbn [convert_datetime_fields is_json unique_keys]; intros Hjson Hkeys;
    try reflexivity; try discriminate.
  - f_equal. apply map_fixed.
    rewrite Forall_forall in *. intros x Hx.
    rewrite forallb_forall in Hjson, Hkeys. auto.
  - f_equal. apply andb_true_iff in Hkeys as [Hdistinct Hkeys].
    rewrite (map_fixed (fun kv => (fst kv, convert_datetime_fields rt (snd kv)))).
    + apply dict_of_items_unique, distinct_NoDup, Hdistinct.
    + rewrite Forall_forall in *. intros [k x] Hx.
      rewrite forallb_forall in Hjson, Hkeys. cbn [fst snd].
      f_equal. apply (IH (k, x) Hx); [apply (Hjson (k, x) Hx)|apply (Hkeys (k, x) Hx)].
Qed.

(** X2.  On a value that holds no timestamp and no timezone marker, nested
    as it may be (the keys of each dict being distinct),
    [convert_datetime_fields] changes nothing. *)
Theorem convert_datetime_fields_identity_on_json (rt : Runtime) (v : pyval) :
  is_json v = true -> unique_keys v = true -> convert_datetime_fields rt v = v.
Proof. apply convert_datetime_fields_fixed. Qed.

Lemma convert_datetime_fields_identity_on_json_witness :
  convert_datetime_fields (sample_runtime upstream_boom) (PDict listing_with_transcript)
  = PDict listing_with_transcript.
Proof.
  apply (convert_datetime_fields_identity_on_json (sample_runtime upstream_boom)
           (PDict listing_with_transcript)); reflexivity.
Defined.

Lemma dict_lookup_map_values (f : pyval -> pyval) (d : dict) (k : string) :
  dict_lookup (map (fun kv => (fst kv, f (snd kv))) d) k
  = option_map f (dict_lookup d k).
Proof.
  induction d as [|[k' x] d IH]; simpl; [reflexivity|].
  destruct (k' =? k); [reflexivity|exact IH].
Qed.

(** X3.  Normalizing a dict whose keys are distinct keeps its keys, in
    their order, and normalizes the value under each key; normalizing a list
    keeps its length and normalizes each element in place. *)
Theorem convert_datetime_fields_structure (rt : Runtime) (d : dict) (l : list pyval) :
  NoDup (keys d) ->
  (exists d', convert_datetime_fields rt (PDict d) = PDict d'
              /\ keys d' = keys d
              /\ forall k, dict_lookup d' k
                           = option_map (convert_datetime_fields rt) (dict_lookup d k))
  /\ (exists l', convert_datetime_fields rt (PList l) = PList l'
               /\ length l' = length l
               /\ forall i, nth_error l' i
                            = option_map (convert_datetime_fields rt) (nth_error l i)).
Proof.
  intros Hnodup. split.
  - exists (map (fun kv => (fst kv, convert_datetime_fields rt (snd kv))) d).
    assert (Hkeys : keys (map (fun kv => (fst kv, convert_datetime_fields rt (snd kv))) d)
                    = keys d).
    { unfold keys. rewrite map_map. reflexivity. }
    repeat split.
    + cbn [convert_datetime_fields]. f_equal.
      apply dict_of_items_unique. now rewrite Hkeys.
    + exact Hkeys.
    + intros k. apply dict_lookup_map_values.
  - exists (map (convert_datetime_fields rt) l). repeat split.
    + apply length_map.
    + intros i. apply nth_error_map.
Qed.

Lemma convert_datetime_fields_structure_witness :
  exists d', convert_datetime_fields (sample_runtime upstream_boom)
               (PDict [("start", PDatetime (mk_datetime 2024 5 1 10 0 0 0 None));
                       ("zone", PTzlocal)]) = PDict d'
             /\ keys d' = ["start"; "zone"].
Proof.
  destruct (convert_datetime_fields_structure (sample_runtime upstream_boom)
              [("start", PDatetime (mk_datetime 2024 5 1 10 0 0 0 None));
               ("zone", PTzlocal)] [])
    as [[d' [Hd [Hk _]]] _].
  - repeat constructor; simpl; intuition discriminate.
  - exists d'. split; assumption.
Defined.

(** ** The resource operations *)










(** X5.  When the HTTP library raises on the call, each resource operation
    returns the error object of the exception: for a [RequestException] with
    a 401 response the "Unauthorized" object, with another response
    "Zoom API error: <status>", without a response "Request to Zoom API
    failed", each with the message as details; for any other exception
    [{"error": message}].  The failed call is the only one. *)
Theorem resource_call_raises
    (rt : Runtime) (e : exn) (from_date to_date meeting_id : pyval)
    (page_size page_number : Z) (w : world) :
  (forall log req, upstream rt log req = Raises e) ->
  list_recordings rt from_date to_date page_size page_number w
    = (inr (text_of (exception_object e)),
       called w (list_recordings_request rt (self w) from_date to_date
                   page_size page_number))
  /\ get_recording_details rt meeting_id w
    = (inr (text_of (exception_object e)),
       called w (meeting_recordings_request rt (self w) meeting_id))
  /\ get_meeting_transcript rt meeting_id w
    = (inr (text_of (exception_object e)),
       called w (meeting_recordings_request rt (self w) meeting_id)).
Proof.
  intros Hup. repeat split.
  - unfold list_recordings, list_recordings_operation, list_recordings_request.
    munfold. rewrite Hup.
    destruct e as [[n|] details|msg]; cbn [request_exception_reply exception_object
      request_exception_object]; [destruct (n =? 401)%Z|..]; reflexivity.
  - unfold get_recording_details, get_recording_details_operation,
      meeting_recordings_request.
    munfold. rewrite Hup.
    destruct e as [[n|] details|msg]; cbn [request_exception_reply exception_object
      request_exception_object]; [destruct (n =? 401)%Z|..]; reflexivity.
  - unfold get_meeting_transcript, get_meeting_transcript_operation,
      meeting_recordings_request.
    munfold. rewrite Hup.
    destruct e as [[n|] details|msg]; cbn [request_exception_reply exception_object
      request_exception_object]; [destruct (n =? 401)%Z|..]; reflexivity.
Qed.

Lemma resource_call_raises_witness :
  fst (get_recording_details
         (sample_runtime (upstream_always (Raises (RequestException (Some 429%Z) "slow down"))))
         (PStr "m1") (fresh token_client))
  = inr (text_of (PDict [("error", PStr "Zoom API error: 429");
                         ("details", PStr "slow down")])).
Proof.
  destruct (resource_call_raises
              (sample_runtime (upstream_always (Raises (RequestException (Some 429%Z) "slow down"))))
              (RequestException (Some 429%Z) "slow down")
              PNone PNone (PStr "m1") 30 1 (fresh token_client)
              (fun log req => eq_refl))
    as [_ [H _]].
  rewrite H. reflexivity.
Defined.

(** X6.  On a response with status 200 whose body is a JSON value
    (timestamps absent, keys distinct), [list_recordings] and
    [get_recording_details] return the text of that very value: the payload
    passes through unchanged. *)
Theorem resource_payload_passes_through
    (rt : Runtime) (r : response) (payload from_date to_date meeting_id : pyval)
    (page_size page_number : Z) (w : world) :
  (forall log req, upstream rt log req = Responds r) ->
  status_code r = 200%Z ->
  json r = inr payload ->
  is_json payload = true ->
  unique_keys payload = true ->
  fst (list_recordings rt from_date to_date page_size page_number w)
    = inr (text_of payload)
  /\ fst (get_recording_details rt meeting_id w) = inr (text_of payload)
  /\ json_dumps payload = inr (text_of payload).
Proof.
  intros Hup Hstatus Hjson Hvalue Hkeys.
  pose proof (json_dumps_is_json payload Hvalue) as Hdumps.
  repeat split; [| |exact Hdumps].
  - unfold list_recordings, list_recordings_operation. munfold.
    rewrite Hup, Hstatus, Hjson. cbn [negb Z.eqb Pos.eqb].
    rewrite (convert_datetime_fields_fixed rt payload Hvalue Hkeys), Hdumps.
    reflexivity.
  - unfold get_recording_details, get_recording_details_operation. munfold.
    rewrite Hup, Hstatus, Hjson. cbn [negb Z.eqb Pos.eqb].
    rewrite (convert_datetime_fields_fixed rt payload Hvalue Hkeys), Hdumps.
    reflexivity.
Qed.

Lemma resource_payload_passes_through_witness :
  fst (get_recording_details
         (sample_runtime
            (upstream_always (Responds (listing_response listing_with_transcript))))
         (PStr "m1") (fresh token_client))
  = inr (text_of (PDict listing_with_transcript)).
Proof.
  destruct (resource_payload_passes_through
              (sample_runtime
                 (upstream_always (Responds (listing_response listing_with_transcript))))
              (listing_response listing_with_transcript)
              (PDict listing_with_transcript) PNone PNone (PStr "m1") 30 1
              (fresh token_client)
              (fun log req => eq_refl) eq_refl eq_refl eq_refl eq_refl)
    as [_ [H _]].
  exact H.
Defined.

(** X7.  On a response with status 200 whose body does not decode
    ([response.json()] raises), each resource operation returns the error
    object of that exception, and makes no further call. *)
Theorem resource_body_not_json
    (rt : Runtime) (r : response) (e : exn) (from_date to_date meeting_id : pyval)
    (page_size page_number : Z) (w : world) :
  (forall log req, upstream rt log req = Responds r) ->
  status_code r = 200%Z ->
  json r = inl e ->
  list_recordings rt from_date to_date page_size page_number w
    = (inr (text_of (exception_object e)),
       called w (list_recordings_request rt (self w) from_date to_date
                   page_size page_number))
  /\ get_recording_details rt meeting_id w
    = (inr (text_of (exception_object e)),
       called w (meeting_recordings_request rt (self w) meeting_id))
  /\ get_meeting_transcript rt meeting_id w
    = (inr (text_of (exception_object e)),
       called w (meeting_recordings_request rt (self w) meeting_id)).
Proof.
  intros Hup Hstatus Hjson. repeat split.
  - unfold list_recordings, list_recordings_operation, list_recordings_request.
    munfold. rewrite Hup, Hstatus, Hjson. cbn [negb Z.eqb Pos.eqb].
    destruct e as [[n|] details|msg]; cbn [request_exception_reply exception_object
      request_exception_object]; [destruct (n =? 401)%Z|..]; reflexivity.
  - unfold get_recording_details, get_recording_details_operation,
      meeting_recordings_request.
    munfold. rewrite Hup, Hstatus, Hjson. cbn [negb Z.eqb Pos.eqb].
    destruct e as [[n|] details|msg]; cbn [request_exception_reply exception_object
      request_exception_object]; [destruct (n =? 401)%Z|..]; reflexivity.
  - unfold get_meeting_transcript, get_meeting_transcript_operation,
      meeting_recordings_request.
    munfold. rewrite Hup, Hstatus, Hjson. cbn [negb Z.eqb Pos.eqb].
    destruct e as [[n|] details|msg]; cbn [request_exception_reply exception_object
      request_exception_object]; [destruct (n =? 401)%Z|..]; reflexivity.
Qed.

Lemma resource_body_not_json_witness :
  fst (list_recordings (sample_runtime (upstream_always (Responds empty_body)))
         PNone PNone 30 1 (fresh token_client))
  = inr (text_of (PDict [("error", PStr "Request to Zoom API failed");
                         ("details", PStr "Expecting value")])).
Proof.
  destruct (resource_body_not_json
              (sample_runtime (upstream_always (Responds empty_body)))
              empty_body (RequestException None "Expecting value")
              PNone PNone (PStr "m1") 30 1 (fresh token_client)
              (fun log req => eq_refl) eq_refl eq_refl)
    as [H _].
  rewrite H. reflexivity.
Defined.

(** ** Token refresh *)

Lemma truthy_nonempty (s : string) : s <> "" -> truthy (PStr s) = true.
Proof. intros Hs. cbn. apply negb_true_iff. now apply String.eqb_neq. Qed.

Lemma is_json_dict_lookup (d : dict) (k : string) (v : pyval) :
  is_json (PDict d) = true -> dict_lookup d k = Some v -> is_json v = true.
Proof.
  induction d as [|[k' x] d IH]; cbn [is_json forallb dict_lookup snd];
    intros Hd Hv; [discriminate|].
  apply andb_true_iff in Hd as [Hx Hd].
  destruct (k' =? k); [now injection Hv as <-|now apply IH].
Qed.

(** X8.  A client with a non-empty refresh token, a string as [client_id],
    and a token endpoint that answers 200 with an object holding
    [access_token]: [refresh_access_token] posts one request (Basic
    authorization from [client_id:client_secret], grant type and refresh
    token as form data), stores the credentials and the new access token,
    stores the new refresh token or keeps the old one when the answer has
    none, and returns the success payload, with [expires_in] defaulting to
    3600. *)
Theorem refresh_access_token_success
    (rt : Runtime) (client_id_ old_refresh expires_at : string)
    (client_secret_ new_access : pyval) (r : response) (body : dict) (w : world) :
  refresh_token (self w) = PStr old_refresh ->
  old_refresh <> "" ->
  upstream rt (calls w)
    (token_request rt (PStr old_refresh) (PStr client_id_) client_secret_) = Responds r ->
  status_code r = 200%Z ->
  json r = inr (PDict body) ->
  is_json (PDict body) = true ->
  dict_lookup body "access_token" = Some new_access ->
  expiry_isoformat rt (dict_get body "expires_in" (PInt 3600)) = inr expires_at ->
  refresh_access_token rt (PStr client_id_) client_secret_ w
  = (inr (text_of (refresh_payload new_access
                     (dict_get body "refresh_token" (PStr old_refresh))
                     expires_at
                     (dict_get body "expires_in" (PInt 3600)))),
     {| self := with_tokens (with_credentials (self w) (PStr client_id_) client_secret_)
                  new_access (dict_get body "refresh_token" (PStr old_refresh));
        calls := calls w ++ [token_request rt (PStr old_refresh) (PStr client_id_)
                               client_secret_] |}).
Proof.
  intros Hold Hne Hup Hstatus Hjson Hbody Haccess Hexpiry.
  unfold refresh_access_token, refresh_access_token_body, token_request in *.
  munfold. cbn [py_slice self calls refresh_token].
  rewrite Hold. rewrite (truthy_nonempty old_refresh Hne).
  repeat first [rewrite Hold | progress cbn [negb py_slice self calls refresh_token]].
  rewrite Hup, Hstatus, Hjson.
  cbn [Z.eqb Pos.eqb py_getitem py_get self calls refresh_token].
  rewrite Haccess, Hexpiry.
  rewrite json_dumps_is_json.
  - unfold with_tokens, with_credentials, refresh_payload. cbn [access_token
      refresh_token client_id client_secret base_url]. rewrite ?Hold. reflexivity.
  - cbn [is_json forallb snd].
    rewrite (is_json_dict_lookup body "access_token" new_access Hbody Haccess).
    rewrite !is_json_dict_get; auto.
Qed.

Lemma refresh_access_token_success_witness :
  fst (refresh_access_token (sample_runtime (upstream_always (Responds token_response)))
         (PStr "client") (PStr "secret") (fresh refresh_client))
  = inr (text_of (refresh_payload (PStr "new-access") (PStr "new-refresh")
                    "2024-05-01T11:00:00" (PInt 3599))).
Proof.
  rewrite (refresh_access_token_success
             (sample_runtime (upstream_always (Responds token_response)))
             "client" "rtok" "2024-05-01T11:00:00" (PStr "secret") (PStr "new-access")
             token_response
             [("access_token", PStr "new-access"); ("refresh_token", PStr "new-refresh");
              ("expires_in", PInt 3599)]
             (fresh refresh_client));
    try reflexivity.
  discriminate.
Defined.

(** X9.  When the token endpoint answers with a status other than 200,
    [refresh_access_token] returns the error object with the status code in
    its message and the body of the response as both [details] and
    [raw_response]; the tokens of the client stay as they were. *)
Theorem refresh_access_token_rejected
    (rt : Runtime) (client_id_ old_refresh : string) (client_secret_ : pyval)
    (r : response) (w : world) :
  refresh_token (self w) = PStr old_refresh ->
  old_refresh <> "" ->
  upstream rt (calls w)
    (token_request rt (PStr old_refresh) (PStr client_id_) client_secret_) = Responds r ->
  status_code r <> 200%Z ->
  refresh_access_token rt (PStr client_id_) client_secret_ w
  = (inr (text_of (PDict
        [("error", PStr ("Failed to refresh token. Status code: "
                         ++ str_of_Z (status_code r)));
         ("details", PStr (text r));
         ("raw_response", PStr (text r));
         ("status", PStr "error")])),
     {| self := with_credentials (self w) (PStr client_id_) client_secret_;
        calls := calls w ++ [token_request rt (PStr old_refresh) (PStr client_id_)
                               client_secret_] |}).
Proof.
  intros Hold Hne Hup Hstatus.
  unfold refresh_access_token, refresh_access_token_body, token_request in *.
  munfold. cbn [py_slice self calls refresh_token].
  rewrite Hold. rewrite (truthy_nonempty old_refresh Hne).
  repeat first [rewrite Hold | progress cbn [negb py_slice self calls refresh_token]].
  rewrite Hup.
  apply Z.eqb_neq in Hstatus. rewrite Hstatus.
  unfold with_credentials. rewrite ?Hold. reflexivity.
Qed.

Lemma refresh_access_token_rejected_witness :
  fst (refresh_access_token (sample_runtime upstream_401)
         (PStr "client") (PStr "secret") (fresh refresh_client))
  = inr (text_of (PDict
        [("error", PStr "Failed to refresh token. Status code: 401");
         ("details", PStr "Invalid access token.");
         ("raw_response", PStr "Invalid access token.");
         ("status", PStr "error")])).
Proof.
  rewrite (refresh_access_token_rejected (sample_runtime upstream_401)
             "client" "rtok" (PStr "secret")
             {| status_code := 401; text := "Invalid access token.";
                json := inr (PDict [("code", PInt 124);
                                    ("message", PStr "Invalid access token.")]) |}
             (fresh refresh_client));
    try reflexivity; discriminate.
Defined.

(** X10.  When the token endpoint answers 200 with an object that has no
    [access_token], [refresh_access_token] returns an error object with
    status "error" whose message is that of the missing key, and the tokens
    of the client stay as they were. *)
Theorem refresh_access_token_without_access_token
    (rt : Runtime) (client_id_ old_refresh : string) (client_secret_ : pyval)
    (r : response) (body : dict) (w : world) :
  refresh_token (self w) = PStr old_refresh ->
  old_refresh <> "" ->
  upstream rt (calls w)
    (token_request rt (PStr old_refresh) (PStr client_id_) client_secret_) = Responds r ->
  status_code r = 200%Z ->
  json r = inr (PDict body) ->
  dict_lookup body "access_token" = None ->
  refresh_access_token rt (PStr client_id_) client_secret_ w
  = (inr (text_of (error_status_object (describe rt (MissingKey "access_token")))),
     {| self := with_credentials (self w) (PStr client_id_) client_secret_;
        calls := calls w ++ [token_request rt (PStr old_refresh) (PStr client_id_)
                               client_secret_] |}).
Proof.
  intros Hold Hne Hup Hstatus Hjson Haccess.
  unfold refresh_access_token, refresh_access_token_body, token_request in *.
  munfold. cbn [py_slice self calls refresh_token].
  rewrite Hold. rewrite (truthy_nonempty old_refresh Hne).
  repeat first [rewrite Hold | progress cbn [negb py_slice self calls refresh_token]].
  rewrite Hup, Hstatus, Hjson.
  cbn [Z.eqb Pos.eqb py_getitem]. rewrite Haccess.
  unfold with_credentials. rewrite ?Hold. reflexivity.
Qed.

Lemma refresh_access_token_without_access_token_witness :
  fst (refresh_access_token
         (sample_runtime
            (upstream_always (Responds (listing_response listing_without_transcript))))
         (PStr "client") (PStr "secret") (fresh refresh_client))
  = inr (text_of (error_status_object "<interpreter error>")).
Proof.
  rewrite (refresh_access_token_without_access_token
             (sample_runtime
                (upstream_always (Responds (listing_response listing_without_transcript))))
             "client" "rtok" (PStr "secret")
             (listing_response listing_without_transcript)
             listing_without_transcript (fresh refresh_client));
    try reflexivity; discriminate.
Defined.

Ltac break_inner :=
  match goal with
  | |- context [match ?x with _ => _ end] =>
      lazymatch x with
      | context [match _ with _ => _ end] => fail
      | _ => destruct x eqn:?
      end
  end.


(** X12.  The log line at the head of [refresh_access_token] slices
    [client_id] before anything else: with a [client_id] that cannot be
    sliced the method raises, makes no call and returns no error object,
    also for a client without refresh token. *)
Theorem refresh_access_token_bad_client_id
    (rt : Runtime) (client_id_ client_secret_ : pyval) (e : exn) (w : world) :
  py_slice rt client_id_ = inl e ->
  refresh_access_token rt client_id_ client_secret_ w = (inl e, w).
Proof.
  intros Hslice. unfold refresh_access_token. unfold bind at 1. unfold lift at 1.
  now rewrite Hslice.
Qed.

Lemma refresh_access_token_bad_client_id_witness :
  refresh_access_token (sample_runtime upstream_boom) PNone (PStr "secret")
    (fresh token_client)
  = (inl (Exception "<interpreter error>"), fresh token_client).
Proof.
  apply (refresh_access_token_bad_client_id (sample_runtime upstream_boom)
           PNone (PStr "secret") (Exception "<interpreter error>") (fresh token_client)).
  reflexivity.
Defined.

(** ** Transcript downloads *)

Lemma is_transcript_file_is_dict (file : pyval) :
  is_transcript_file file = true -> is_dict file = true.
Proof. now destruct file. Qed.

Lemma fetch_transcripts_calls rt files :
  Forall (fun file => is_dict file = true) files ->
  (forall log req, exists r, upstream rt log req = Responds r) ->
  forall transcripts w,
  exists transcripts',
    fetch_transcripts rt files transcripts w
    = (inr transcripts',
       {| self := self w;
          calls := calls w ++ map (download_request rt (self w)) (file_urls files) |}).
Proof.
  intros Hdicts Hup.
  induction Hdicts as [|file files Hfile _ IH]; intros transcripts w.
  - exists transcripts. cbn. rewrite List.app_nil_r. now destruct w.
  - destruct file; try discriminate.
    cbn [fetch_transcripts file_urls flat_map download_url_of]. munfold.
    cbn [py_in py_getitem py_get]. unfold dict_has.
    destruct (dict_lookup items "download_url") as [download_url|].
    + destruct (Hup (calls w)
                  (mk_request GET download_url (_get_headers rt (self w)) [] []))
        as [r Hr].
      rewrite Hr.
      destruct (status_code r =? 200)%Z.
      * match goal with
        | |- context [fetch_transcripts rt files ?acc ?w1] =>
            destruct (IH acc w1) as [transcripts' ->]
        end.
        exists transcripts'. cbn [self calls app map]. unfold download_request.
        now rewrite <- List.app_assoc.
      * match goal with
        | |- context [fetch_transcripts rt files ?acc ?w1] =>
            destruct (IH acc w1) as [transcripts' ->]
        end.
        exists transcripts'. cbn [self calls app map]. unfold download_request.
        now rewrite <- List.app_assoc.
    + cbn [app]. apply IH.
Qed.

Lemma transcript_files_are_dicts (files : list pyval) :
  Forall (fun file => is_dict file = true) (filter is_transcript_file files).
Proof.
  apply Forall_forall. intros file Hin. apply filter_In in Hin as [_ Hfile].
  now apply is_transcript_file_is_dict.
Qed.

(** X13.  With an upstream that answers every call, and a listing answered
    with status 200: after the listing request, [get_meeting_transcript]
    issues one download request for each transcript file that has a
    [download_url], in the order of the listing and with the client's
    headers, and no other call; files of another type are never
    downloaded. *)
Theorem transcript_downloads_in_order
    (rt : Runtime) (meeting_id : pyval) (w : world) (r : response)
    (listing : dict) (files : list pyval) :
  (forall log req, exists r', upstream rt log req = Responds r') ->
  upstream rt (calls w) (meeting_recordings_request rt (self w) meeting_id) = Responds r ->
  status_code r = 200%Z ->
  json r = inr (PDict listing) ->
  recording_files_of listing = Some files ->
  calls (snd (get_meeting_transcript rt meeting_id w))
  = (calls w
     ++ meeting_recordings_request rt (self w) meeting_id
        :: map (download_request rt (self w))
             (file_urls (filter is_transcript_file files)))%list.
Proof.
  intros Hall Hup Hstatus Hjson Hfiles.
  unfold get_meeting_transcript, get_meeting_transcript_operation.
  unfold meeting_recordings_request in *. munfold.
  rewrite Hup, Hstatus, Hjson. cbn [negb Z.eqb Pos.eqb].
  rewrite (select_transcript_files_listing rt listing files Hfiles).
  pose proof (transcript_files_are_dicts files) as Hdicts.
  destruct (filter is_transcript_file files) as [|file rest] eqn:Hfilter.
  - reflexivity.
  - match goal with
    | |- context [fetch_transcripts rt ?f ?a ?w1] =>
        destruct (fetch_transcripts_calls rt f Hdicts Hall a w1) as [transcripts ->]
    end.
    cbn [py_get self calls].
    rewrite <- List.app_assoc. cbn [app].
    repeat (break_inner; cbn [fst snd calls]); reflexivity.
Qed.

Lemma transcript_downloads_in_order_witness :
  calls (snd (get_meeting_transcript
                (sample_runtime (upstream_meeting listing_with_transcript not_found))
                (PStr "m1") (fresh token_client)))
  = [meeting_recordings_request
       (sample_runtime (upstream_meeting listing_with_transcript not_found))
       token_client (PStr "m1");
     download_request
       (sample_runtime (upstream_meeting listing_with_transcript not_found))
       token_client (PStr "https://zoom.us/rec/download/f2")].
Proof.
  rewrite (transcript_downloads_in_order
             (sample_runtime (upstream_meeting listing_with_transcript not_found))
             (PStr "m1") (fresh token_client)
             (listing_response listing_with_transcript)
             listing_with_transcript
             [PDict [("id", PStr "f2"); ("file_type", PStr "TRANSCRIPT");
                     ("download_url", PStr "https://zoom.us/rec/download/f2")]]);
    try reflexivity.
  intros log req. cbn. unfold upstream_meeting.
  destruct (py_eq_str (url req) "https://api.zoom.us/v2/meetings/m1/recordings");
    eexists; reflexivity.
Defined.

Lemma fetch_transcripts_all_succeed rt (reply : pyval -> response) zoom files :
  Forall (fun file => is_dict file = true) files ->
  (forall file download_url,
      In file files -> download_url_of file = Some download_url ->
      forall log,
        upstream rt log (download_request rt zoom download_url)
        = Responds (reply download_url)
        /\ status_code (reply download_url) = 200%Z) ->
  forall transcripts w, self w = zoom ->
  fst (fetch_transcripts rt files transcripts w)
  = inr (transcripts ++ transcript_entries (fun u => text (reply u)) files)%list.
Proof.
  intros Hdicts.
  induction Hdicts as [|file files Hfile _ IH]; intros Hup transcripts w Hself.
  - cbn. now rewrite List.app_nil_r.
  - destruct file; try discriminate.
    cbn [fetch_transcripts transcript_entries flat_map]. munfold.
    cbn [py_in py_getitem py_get]. unfold dict_has.
    pose proof (Hup (PDict items)) as Hfirst. cbn [download_url_of] in *.
    destruct (dict_lookup items "download_url") as [download_url|].
    + destruct (Hfirst download_url (or_introl eq_refl) eq_refl (calls w))
        as [Hr Hstatus].
      unfold download_request in Hr. rewrite Hself, Hr, Hstatus.
      cbn [Z.eqb Pos.eqb].
      rewrite IH;
        [|intros f u Hin Hu; apply (Hup f u); [now right|assumption]|reflexivity].
      cbn [transcript_entry app]. now rewrite <- List.app_assoc.
    + cbn [app]. apply IH; [|assumption].
      intros f u Hin Hu; apply (Hup f u); [now right|assumption].
Qed.

(** X14.  A listing with at least one transcript file, where the download
    of every transcript file that has a URL is answered with status 200:
    [get_meeting_transcript] returns the success payload whose [transcripts]
    list has one entry for each such file, in the order of the listing, with
    the body of its download as [content] and the empty string for each
    field the file lacks. *)
Theorem transcripts_all_downloaded
    (rt : Runtime) (reply : pyval -> response) (meeting_id : pyval) (w : world)
    (r : response) (listing : dict) (files : list pyval) :
  upstream rt (calls w) (meeting_recordings_request rt (self w) meeting_id) = Responds r ->
  status_code r = 200%Z ->
  json r = inr (PDict listing) ->
  recording_files_of listing = Some files ->
  existsb is_transcript_file files = true ->
  (forall file download_url,
      In file (filter is_transcript_file files) ->
      download_url_of file = Some download_url ->
      forall log,
        upstream rt log (download_request rt (self w) download_url)
        = Responds (reply download_url)
        /\ status_code (reply download_url) = 200%Z) ->
  is_json meeting_id = true ->
  is_json (PDict listing) = true ->
  fst (get_meeting_transcript rt meeting_id w)
  = inr (text_of (transcript_payload rt meeting_id listing
                    (transcript_entries (fun u => text (reply u))
                       (filter is_transcript_file files)))).
Proof.
  intros Hup Hstatus Hjson Hfiles Hsome Hdownloads Hmid Hlisting.
  unfold get_meeting_transcript, get_meeting_transcript_operation.
  unfold meeting_recordings_request in *. munfold.
  rewrite Hup, Hstatus, Hjson. cbn [negb Z.eqb Pos.eqb].
  rewrite (select_transcript_files_listing rt listing files Hfiles).
  apply filter_some in Hsome.
  pose proof (transcript_files_are_dicts files) as Hdicts.
  destruct (filter is_transcript_file files) as [|file rest]; [congruence|].
  match goal with
  | |- context [fetch_transcripts rt ?f ?a ?w1] =>
      pose proof (fetch_transcripts_all_succeed rt reply (self w) f Hdicts
                    Hdownloads a w1 eq_refl) as Hfetch;
      destruct (fetch_transcripts rt f a w1) as [[e|transcripts] w2]
  end; cbn [fst] in Hfetch; [discriminate|].
  injection Hfetch as ->. cbn [app py_get].
  unfold transcript_payload.
  rewrite json_dumps_is_json; [reflexivity|].
  cbn [is_json forallb snd]. rewrite Hmid.
  rewrite !is_json_dict_get; auto.
  change (is_json (convert_datetime_fields rt
            (PList (transcript_entries (fun u => text (reply u)) (file :: rest)))) && true
          = true).
  now rewrite is_json_convert_datetime_fields.
Qed.

Lemma transcripts_all_downloaded_witness :
  fst (get_meeting_transcript
         (sample_runtime (upstream_meeting listing_with_transcript empty_body))
         (PStr "m1") (fresh token_client))
  = inr (text_of (PDict [("meeting_id", PStr "m1");
                         ("topic", PStr "Standup");
                         ("meeting_duration", PInt 30);
                         ("transcripts",
                          PList [PDict [("file_id", PStr "f2");
                                        ("file_name", PStr "");
                                        ("recording_start", PStr "");
                                        ("recording_end", PStr "");
                                        ("content", PStr "")]]);
                         ("status", PStr "success")])).
Proof.
  rewrite (transcripts_all_downloaded
             (sample_runtime (upstream_meeting listing_with_transcript empty_body))
             (fun _ => empty_body)
             (PStr "m1") (fresh token_client)
             (listing_response listing_with_transcript)
             listing_with_transcript
             [PDict [("id", PStr "f2"); ("file_type", PStr "TRANSCRIPT");
                     ("download_url", PStr "https://zoom.us/rec/download/f2")]]);
    try reflexivity.
  intros file download_url Hin Hurl log.
  cbn in Hin. destruct Hin as [<-|[]]. cbn in Hurl. injection Hurl as <-.
  split; reflexivity.
Defined.

Lemma fetch_transcripts_raise rt (e : exn) zoom (u : pyval) (more : list pyval) files :
  Forall (fun file => is_dict file = true) files ->
  (forall log, upstream rt log (download_request rt zoom u) = Raises e) ->
  forall us transcripts w,
  file_urls files = (us ++ u :: more)%list ->
  (forall u', In u' us ->
     forall log, exists r, upstream rt log (download_request rt zoom u') = Responds r) ->
  self w = zoom ->
  fetch_transcripts rt files transcripts w
  = (inl e,
     {| self := zoom;
        calls := calls w ++ map (download_request rt zoom) (us ++ [u]) |}).
Proof.
  intros Hdicts Hraise.
  induction Hdicts as [|file files Hfile _ IH]; intros us transcripts w Hurls Hus Hself.
  - cbn in Hurls. now destruct us.
  - destruct file; try discriminate.
    cbn [fetch_transcripts file_urls flat_map download_url_of] in *. munfold.
    cbn [py_in py_getitem py_get]. unfold dict_has.
    destruct (dict_lookup items "download_url") as [download_url|].
    + cbn [app] in Hurls. destruct us as [|u0 us].
      * cbn [app] in Hurls. injection Hurls as -> _.
        pose proof (Hraise (calls w)) as Hr. unfold download_request in Hr.
        rewrite Hself, Hr. reflexivity.
      * cbn [app] in Hurls. injection Hurls as -> Hurls.
        destruct (Hus u0 (or_introl eq_refl) (calls w)) as [r Hr].
        unfold download_request in Hr. rewrite Hself, Hr.
        destruct (status_code r =? 200)%Z.
        all: erewrite IH;
          [ cbn [self calls app map]; unfold download_request;
            now rewrite <- List.app_assoc
          | exact Hurls
          | intros u' Hin; apply Hus; now right
          | reflexivity ].
    + cbn [app] in Hurls. now apply IH.
Qed.

(** X15.  When the download of one transcript file makes the HTTP library
    raise, [get_meeting_transcript] returns the error object of that
    exception alone: the transcripts downloaded before it are dropped, the
    files after it are not requested, and the reply carries no transcript. *)
Theorem transcript_download_raises
    (rt : Runtime) (e : exn) (meeting_id : pyval) (w : world) (r : response)
    (listing : dict) (files : list pyval) (us : list pyval) (u : pyval)
    (more : list pyval) :
  upstream rt (calls w) (meeting_recordings_request rt (self w) meeting_id) = Responds r ->
  status_code r = 200%Z ->
  json r = inr (PDict listing) ->
  recording_files_of listing = Some files ->
  file_urls (filter is_transcript_file files) = (us ++ u :: more)%list ->
  (forall u', In u' us ->
     forall log, exists r',
       upstream rt log (download_request rt (self w) u') = Responds r') ->
  (forall log, upstream rt log (download_request rt (self w) u) = Raises e) ->
  get_meeting_transcript rt meeting_id w
  = (inr (text_of (exception_object e)),
     {| self := self w;
        calls := calls w
                 ++ meeting_recordings_request rt (self w) meeting_id
                    :: map (download_request rt (self w)) (us ++ [u]) |}).
Proof.
  intros Hup Hstatus Hjson Hfiles Hurls Hus Hraise.
  unfold get_meeting_transcript, get_meeting_transcript_operation.
  unfold meeting_recordings_request in *. munfold.
  rewrite Hup, Hstatus, Hjson. cbn [negb Z.eqb Pos.eqb].
  rewrite (select_transcript_files_listing rt listing files Hfiles).
  pose proof (transcript_files_are_dicts files) as Hdicts.
  destruct (filter is_transcript_file files) as [|file rest].
  - cbn in Hurls. now destruct us.
  - match goal with
    | |- context [fetch_transcripts rt ?f ?a ?w1] =>
        rewrite (fetch_transcripts_raise rt e (self w) u more f Hdicts Hraise
                   us a w1 Hurls Hus eq_refl)
    end.
    cbn [calls]. rewrite <- List.app_assoc. cbn [app].
    destruct e as [[n|] details|msg]; cbn [request_exception_reply exception_object
      request_exception_object]; [destruct (n =? 401)%Z|..]; reflexivity.
Qed.

Lemma transcript_download_raises_witness :
  get_meeting_transcript (sample_runtime upstream_second_fails) (PStr "m1")
    (fresh token_client)
  = (inr (text_of (PDict [("error", PStr "Request to Zoom API failed");
                          ("details", PStr "connection reset")])),
     {| self := token_client;
        calls := [meeting_recordings_request (sample_runtime upstream_second_fails)
                    token_client (PStr "m1");
                  download_request (sample_runtime upstream_second_fails)
                    token_client (PStr "https://zoom.us/rec/download/f2");
                  download_request (sample_runtime upstream_second_fails)
                    token_client (PStr "https://zoom.us/rec/download/f3")] |}).
Proof.
  apply (transcript_download_raises (sample_runtime upstream_second_fails)
           (RequestException None "connection reset")
           (PStr "m1") (fresh token_client)
           (listing_response listing_two_transcripts)
           listing_two_transcripts
           [PDict [("id", PStr "f2"); ("file_type", PStr "TRANSCRIPT");
                   ("download_url", PStr "https://zoom.us/rec/download/f2")];
            PDict [("id", PStr "f3"); ("file_type", PStr "TRANSCRIPT");
                   ("download_url", PStr "https://zoom.us/rec/download/f3")]]
           [PStr "https://zoom.us/rec/download/f2"]
           (PStr "https://zoom.us/rec/download/f3") []);
    try reflexivity.
  intros u' [<-|[]] log. eexists. reflexivity.
Defined.

(** ** The dispatcher and the registry *)

Ltac break_all :=
  repeat (cbn [negb orb andb fst snd]; break_inner).

(** X16.  For every tool of the registry and every field its input schema
    requires: when the arguments (after the repair of collapsed arguments)
    lack the field or hold a false value for it, the dispatcher answers with
    an ["Error: ..."] text and makes no HTTP call. *)
Theorem required_arguments_enforced
    (rt : Runtime) (tool : Tool) (field : string) (kv : string * pyval) (more : dict)
    (log : list request) :
  In tool handle_list_tools ->
  In field (schema_required tool) ->
  truthy (dict_get (extract_backtick_arguments (tool_name tool) (kv :: more)) field PNone)
  = false ->
  exists msg,
    handle_call_tool rt (tool_name tool) (Some (kv :: more)) log
    = (inr [TextContent ("Error: " ++ msg)], log).
Proof.
  intros Htool Hfield Hfalse.
  destruct Htool as [<-|[<-|[<-|[<-|[]]]]];
    cbn [tool_name] in *; unfold handle_call_tool; cbv zeta.
  - change ("zoom_refresh_token" =? "zoom_refresh_token") with true. cbv iota.
    set (arguments := extract_backtick_arguments "zoom_refresh_token" (kv :: more)) in *.
    unfold call_refresh_token, slice_if_truthy, ZoomClient_init. munfold.
    destruct Hfield as [<-|[<-|[<-|[]]]]; rewrite Hfalse;
      break_all; try discriminate; eexists; reflexivity.
  - change ("zoom_list_recordings" =? "zoom_refresh_token") with false. cbv iota.
    rewrite extract_backtick_arguments_other in * by reflexivity.
    unfold call_resource_tool. munfold.
    destruct Hfield as [<-|[]]; rewrite Hfalse;
      break_all; try discriminate; eexists; reflexivity.
  - change ("zoom_get_recording_details" =? "zoom_refresh_token") with false. cbv iota.
    rewrite extract_backtick_arguments_other in * by reflexivity.
    unfold call_resource_tool, ZoomClient_init. munfold.
    change ("zoom_get_recording_details" =? "zoom_list_recordings") with false.
    change ("zoom_get_recording_details" =? "zoom_get_recording_details") with true.
    cbv iota.
    destruct Hfield as [<-|[<-|[]]]; rewrite Hfalse;
      break_all; try discriminate; eexists; reflexivity.
  - change ("zoom_get_meeting_transcript" =? "zoom_refresh_token") with false. cbv iota.
    rewrite extract_backtick_arguments_other in * by reflexivity.
    unfold call_resource_tool, ZoomClient_init. munfold.
    change ("zoom_get_meeting_transcript" =? "zoom_list_recordings") with false.
    change ("zoom_get_meeting_transcript" =? "zoom_get_recording_details") with false.
    change ("zoom_get_meeting_transcript" =? "zoom_get_meeting_transcript") with true.
    cbv iota.
    destruct Hfield as [<-|[<-|[]]]; rewrite Hfalse;
      break_all; try discriminate; eexists; reflexivity.
Qed.

Lemma required_arguments_enforced_witness :
  exists msg,
    handle_call_tool (sample_runtime upstream_boom) "zoom_get_recording_details"
      (Some [("zoom_access_token", PStr "tok")]) []
    = (inr [TextContent ("Error: " ++ msg)], []).
Proof.
  apply (required_arguments_enforced (sample_runtime upstream_boom)
           (mk_Tool "zoom_get_recording_details"
              "Get detailed information about a specific Zoom meeting recording including recording files and metadata"
              (PDict
                 [("type", PStr "object");
                  ("properties",
                   PDict [("zoom_access_token",
                           schema_property "string" "Zoom OAuth2 access token");
                          ("meeting_id",
                           schema_property "string"
                             "The Zoom meeting ID to retrieve recording details for")]);
                  ("required", PList [PStr "zoom_access_token"; PStr "meeting_id"])]))
           "meeting_id" ("zoom_access_token", PStr "tok") [] []).
  - right. right. left. reflexivity.
  - right. left. reflexivity.
  - reflexivity.
Defined.




Lemma dict_get_present (d : dict) (k : string) (v default : pyval) :
  dict_lookup d k = Some v -> dict_get d k default = v.
Proof. intros H. unfold dict_get. now rewrite H. Qed.




Lemma list_recordings_calls rt from_date to_date page_size page_number w :
  calls (snd (list_recordings rt from_date to_date page_size page_number w))
  = (calls w ++ [list_recordings_request rt (self w) from_date to_date
                   page_size page_number])%list.
Proof.
  unfold list_recordings.
  change (fun e => dumps (PDict [("error", PStr (exn_msg e))]))
    with (fun e => @dumps world (error_object (exn_msg e))).
  rewrite outer_catch_run, handle_token_refresh_run, list_recordings_operation_run.
  cbv zeta.
  destruct (upstream rt _ _) as [r|e].
  - destruct (resource_reply rt "recordings" r) as [e|s]; [|reflexivity].
    destruct (request_exception_reply e); reflexivity.
  - destruct (request_exception_reply e); reflexivity.
Qed.

(** X18.  The tool [zoom_list_recordings] with a non-empty string as
    [zoom_access_token]: the dispatcher builds a client from the token alone
    and calls [list_recordings] with [from_date] and [to_date] as given (or
    [None]), [page_size] converted by [int] with default 30 and
    [page_number] with default 1; the reply is the string the operation
    returns, and the one request made is that of the operation. *)
Theorem dispatch_list_recordings
    (rt : Runtime) (token : string) (kv : string * pyval) (more : dict)
    (log : list request) (page_size page_number : Z) :
  dict_lookup (kv :: more) "zoom_access_token" = Some (PStr token) ->
  token <> "" ->
  is_json (PDict (kv :: more)) = true ->
  py_int rt (dict_get (kv :: more) "page_size" (PInt 30)) = inr page_size ->
  py_int rt (dict_get (kv :: more) "page_number" (PInt 1)) = inr page_number ->
  exists body,
    handle_call_tool rt "zoom_list_recordings" (Some (kv :: more)) log
    = (inr [TextContent body],
       (log ++ [list_recordings_request rt (access_client (PStr token))
                  (dict_get (kv :: more) "from_date" PNone)
                  (dict_get (kv :: more) "to_date" PNone)
                  page_size page_number])%list)
    /\ fst (list_recordings rt
              (dict_get (kv :: more) "from_date" PNone)
              (dict_get (kv :: more) "to_date" PNone)
              page_size page_number
              {| self := access_client (PStr token); calls := log |})
       = inr body.
Proof.
  intros Htoken Hne Hjson Hps Hpn.
  pose proof (json_dumps_is_json _ Hjson) as Hdumps.
  unfold handle_call_tool. cbv zeta. munfold. rewrite Hdumps.
  change ("zoom_list_recordings" =? "zoom_refresh_token") with false. cbv iota.
  rewrite extract_backtick_arguments_other by reflexivity.
  unfold call_resource_tool, ZoomClient_init. cbv zeta.
  rewrite (dict_get_present _ _ _ PNone Htoken).
  rewrite !truthy_nonempty by assumption.
  change ("zoom_list_recordings" =? "zoom_list_recordings") with true.
  munfold. cbn [py_slice negb orb andb]. rewrite Hps, Hpn.
  unfold with_client. fold (access_client (PStr token)).
  set (from_date := dict_get (kv :: more) "from_date" PNone).
  set (to_date := dict_get (kv :: more) "to_date" PNone).
  set (w := {| self := access_client (PStr token); calls := log |}).
  pose proof (list_recordings_calls rt from_date to_date page_size page_number w)
    as Hcalls.
  destruct (always_replies_json_list_recordings rt from_date to_date
              page_size page_number w) as [body [Hbody _]].
  destruct (list_recordings rt from_date to_date page_size page_number w)
    as [result w'].
  cbn [fst snd] in *. subst result. exists body.
  rewrite Hcalls. split; reflexivity.
Qed.

Lemma dispatch_list_recordings_witness :
  exists body,
    handle_call_tool (sample_runtime upstream_401) "zoom_list_recordings"
      (Some [("zoom_access_token", PStr "tok")]) []
    = (inr [TextContent body],
       [list_recordings_request (sample_runtime upstream_401)
          (access_client (PStr "tok")) PNone PNone 30 1]).
Proof.
  destruct (dispatch_list_recordings (sample_runtime upstream_401) "tok"
              ("zoom_access_token", PStr "tok") [] [] 30 1)
    as [body [Hrun _]]; try reflexivity.
  - discriminate.
  - exists body. exact Hrun.
Defined.

(** X19.  The tool [zoom_list_recordings] with a valid access token but a
    [page_size] or [page_number] that [int] rejects (a null, a list, a string
    that is no number): the dispatcher answers with the text "Error: "
    followed by the message of the conversion error and makes no HTTP call. *)
Theorem dispatch_list_recordings_bad_page
    (rt : Runtime) (token : string) (kv : string * pyval) (more : dict)
    (log : list request) (e : exn) :
  dict_lookup (kv :: more) "zoom_access_token" = Some (PStr token) ->
  token <> "" ->
  is_json (PDict (kv :: more)) = true ->
  py_int rt (dict_get (kv :: more) "page_size" (PInt 30)) = inl e
  \/ ((exists page_size,
          py_int rt (dict_get (kv :: more) "page_size" (PInt 30)) = inr page_size)
      /\ py_int rt (dict_get (kv :: more) "page_number" (PInt 1)) = inl e) ->
  handle_call_tool rt "zoom_list_recordings" (Some (kv :: more)) log
  = (inr [TextContent ("Error: " ++ exn_msg e)], log).
Proof.
  intros Htoken Hne Hjson Hbad.
  pose proof (json_dumps_is_json _ Hjson) as Hdumps.
  unfold handle_call_tool. cbv zeta. munfold. rewrite Hdumps.
  change ("zoom_list_recordings" =? "zoom_refresh_token") with false. cbv iota.
  rewrite extract_backtick_arguments_other by reflexivity.
  unfold call_resource_tool, ZoomClient_init. cbv zeta.
  rewrite (dict_get_present _ _ _ PNone Htoken).
  rewrite !truthy_nonempty by assumption.
  change ("zoom_list_recordings" =? "zoom_list_recordings") with true.
  munfold. cbn [py_slice negb orb andb].
  destruct Hbad as [Hps|[[page_size Hps] Hpn]].
  - rewrite Hps. reflexivity.
  - rewrite Hps, Hpn. reflexivity.
Qed.

Lemma dispatch_list_recordings_bad_page_witness :
  handle_call_tool (sample_runtime upstream_boom) "zoom_list_recordings"
    (Some [("zoom_access_token", PStr "tok"); ("page_size", PNone)]) []
  = (inr [TextContent "Error: <interpreter error>"], []).
Proof.
  apply (dispatch_list_recordings_bad_page (sample_runtime upstream_boom) "tok"
           ("zoom_access_token", PStr "tok") [("page_size", PNone)] []
           (Exception "<interpreter error>")); try reflexivity.
  - discriminate.
  - left. reflexivity.
Defined.

(** ** Collapsed arguments *)

Lemma strip_prefix_decompose (p s rest : string) :
  strip_prefix p s = Some rest -> s = p ++ rest.
Proof.
  revert s. induction p as [|a p IH]; intros s; simpl.
  - now intros [= ->].
  - destruct s as [|b s]; [discriminate|].
    destruct (Ascii.eqb_spec a b) as [->|_]; [|discriminate].
    intros H. now rewrite (IH s H).
Qed.

Lemma strip_prefix_app_same (p rest : string) : strip_prefix p (p ++ rest) = Some rest.
Proof.
  induction p as [|a p IH]; simpl; [reflexivity|].
  now rewrite Ascii.eqb_refl.
Qed.

Lemma str_contains_prefix (sub rest : string) : str_contains sub (sub ++ rest) = true.
Proof.
  destruct (sub ++ rest) eqn:E; cbn [str_contains];
    rewrite <- E, strip_prefix_app_same; reflexivity.
Qed.

Lemma str_contains_app_r (sub pre t : string) :
  str_contains sub t = true -> str_contains sub (pre ++ t) = true.
Proof.
  intros Ht. induction pre as [|c pre IH]; [exact Ht|].
  cbn [append str_contains].
  destruct (strip_prefix sub (String c (pre ++ t))); [reflexivity|exact IH].
Qed.

Lemma skip_space_suffix (s : string) : exists ws, s = ws ++ skip_space s.
Proof.
  induction s as [|c s [ws IH]]; [now exists ""|].
  cbn [skip_space]. destruct (is_space c).
  - exists (String c ws). cbn. now rewrite <- IH.
  - now exists "".
Qed.

Lemma span_no_backtick_spec (s v r : string) :
  span_no_backtick s = (v, r) ->
  s = v ++ r /\ str_contains (String backtick "") v = false.
Proof.
  revert v r. induction s as [|c s IH]; intros v r; cbn [span_no_backtick].
  - intros [= <- <-]. split; reflexivity.
  - destruct (Ascii.eqb c backtick) eqn:Hc.
    + intros [= <- <-]. split; reflexivity.
    + destruct (span_no_backtick s) as [v' r'].
      intros [= <- <-]. destruct (IH v' r' eq_refl) as [-> Hv'].
      split; [reflexivity|].
      cbn [str_contains strip_prefix].
      rewrite Ascii.eqb_sym, Hc. exact Hv'.
Qed.

Lemma span_no_backtick_rest (s v r : string) (c : ascii) :
  span_no_backtick s = (v, String c r) -> c = backtick.
Proof.
  revert v. induction s as [|x s IH]; intros v; cbn [span_no_backtick].
  - discriminate.
  - destruct (Ascii.eqb_spec x backtick) as [->|_].
    + now intros [= _ ->].
    + destruct (span_no_backtick s) as [v' r'].
      intros [= _ ->]. exact (IH v' eq_refl).
Qed.

Lemma match_backtick_pair_spec (field s v : string) :
  match_backtick_pair field s = Some v ->
  v <> ""
  /\ str_contains (String backtick "") v = false
  /\ str_contains (String backtick (v ++ String backtick "")) s = true.
Proof.
  unfold match_backtick_pair.
  destruct (strip_prefix (String backtick (field ++ String backtick ":")) s)
    as [rest|] eqn:Hprefix; [|discriminate].
  destruct (skip_space_suffix rest) as [ws Hws].
  destruct (skip_space rest) as [|c rest1]; [discriminate|].
  destruct (Ascii.eqb_spec c backtick) as [->|_]; [|discriminate].
  destruct (span_no_backtick rest1) as [value rest2] eqn:Hspan.
  destruct value as [|a value]; [discriminate|].
  destruct rest2 as [|c2 rest3]; [discriminate|].
  intros [= <-].
  pose proof (span_no_backtick_rest _ _ _ _ Hspan) as ->.
  destruct (span_no_backtick_spec rest1 _ _ Hspan) as [Hrest1 Hclean].
  repeat split; [discriminate|exact Hclean|].
  rewrite (strip_prefix_decompose _ _ _ Hprefix), Hws, Hrest1.
  apply str_contains_app_r, str_contains_app_r.
  change (String backtick (String a value ++ String backtick rest3))
    with (String backtick (String a value ++ String backtick "" ++ rest3)).
  rewrite <- str_app_assoc.
  exact (str_contains_prefix (String backtick (String a value ++ String backtick "")) rest3).
Qed.

Lemma re_search_backtick_pair_spec (field s v : string) :
  re_search_backtick_pair field s = Some v ->
  v <> ""
  /\ str_contains (String backtick "") v = false
  /\ str_contains (String backtick (v ++ String backtick "")) s = true.
Proof.
  induction s as [|c s IH]; cbn [re_search_backtick_pair].
  - destruct (match_backtick_pair field "") eqn:Hm; [|discriminate].
    intros [= <-]. exact (match_backtick_pair_spec _ _ _ Hm).
  - destruct (match_backtick_pair field (String c s)) eqn:Hm.
    + intros [= <-]. exact (match_backtick_pair_spec _ _ _ Hm).
    + intros Hs. destruct (IH Hs) as [Hne [Hclean Hin]].
      repeat split; [exact Hne|exact Hclean|].
      exact (str_contains_app_r _ (String c "") s Hin).
Qed.

(** X20.  The value the pattern of a field extracts from a key is never
    empty, holds no backtick, and stands in the key between two backticks;
    the key also holds the backtick-quoted name of the field. *)
Theorem extracted_value_spec (field key v : string) :
  re_search_backtick_pair field key = Some v ->
  v <> ""
  /\ str_contains "`" v = false
  /\ str_contains (String backtick (v ++ "`")) key = true
  /\ str_contains (String backtick (field ++ "`")) key = true.
Proof.
  intros Hv. destruct (re_search_backtick_pair_spec field key v Hv) as [H1 [H2 H3]].
  repeat split; try assumption.
  exact (re_search_backtick_pair_contains field key v Hv).
Qed.

Lemma extracted_value_spec_witness :
  re_search_backtick_pair "zoom_client_id"
    "`zoom_refresh_token`: `abc`, `zoom_client_id`:   `id1`" = Some "id1"
  /\ str_contains "`id1`" "`zoom_refresh_token`: `abc`, `zoom_client_id`:   `id1`" = true.
Proof.
  split; [reflexivity|].
  apply (extracted_value_spec "zoom_client_id"
           "`zoom_refresh_token`: `abc`, `zoom_client_id`:   `id1`" "id1").
  reflexivity.
Defined.





(** ** Meeting tools and query parameters *)



(** X23.  The query of [list_recordings] holds [from] exactly when
    [from_date] is true (a non-empty string) and [to] exactly when [to_date]
    is, each with the value given; [page_number] is sent as it is; and the
    query holds no other key than these and [page_size]. *)
Theorem list_recordings_query
    (rt : Runtime) (from_date to_date : pyval) (page_size page_number : Z) (w : world) :
  exists req,
    calls (snd (list_recordings rt from_date to_date page_size page_number w))
    = (calls w ++ [req])%list
    /\ dict_lookup (params req) "from"
       = (if truthy from_date then Some from_date else None)
    /\ dict_lookup (params req) "to"
       = (if truthy to_date then Some to_date else None)
    /\ dict_lookup (params req) "page_number" = Some (PInt page_number)
    /\ keys (params req)
       = (["page_size"; "page_number"]
          ++ (if truthy from_date then ["from"] else [])
          ++ (if truthy to_date then ["to"] else []))%list
    /\ data req = [].
Proof.
  exists (list_recordings_request rt (self w) from_date to_date page_size page_number).
  split; [apply list_recordings_calls|].
  unfold list_recordings_request; cbn [params data].
  destruct (truthy from_date), (truthy to_date); repeat split.
Qed.
